(** * icefit: health metrics, profile update, registration and meal-plan assembly

    A shallow embedding of the Python sources

      - [services/user_service.py]   (UserCalculationService, UserService)
      - [routes/auth/auth.py]        (update_user_profile with its response, the
                                      health-insight helpers)
      - [models.py]                  (UserRegisterModel.set_target_weight, calculate_age)
      - [services/gemini_service.py] (generate_meal_plan, create_weekly_meal_plan_model)
      - [services/auth_service.py]   (verify_token, get_user_id_from_token)
      - [middleware/auth_middleware.py] (get_current_user)

    Numbers.  Python's [float] and [int] are both embedded as exact
    rationals ([Qc], canonical fractions, so that equal numbers are equal
    terms).  Arithmetic is therefore exact: binary rounding error, NaN,
    infinities and overflow of IEEE doubles are outside the model, and the
    statements made on it are about the structure of the computation (which
    branch, which keys, which inputs reach which field), not about the last
    digit of a figure.  [round(x, 2)] is rounding to the nearest hundredth
    with ties to the even neighbour, [int(x)] is truncation toward zero.
    Where the rounding of a double decides what is stated, the function is
    embedded over IEEE binary64 itself (module [Binary64]).

    Values.  Dictionaries handled by the routes hold dynamically typed
    values; they are embedded as [gmap string value] where [value] is the
    tagged union of the Python objects that can occur in a request body or a
    stored document.  Exceptions are explicit: a computation returns
    [Ok v] or [Raise e]. *)

From Stdlib Require Import ZArith QArith Qcanon String Ascii List Lia Floats.
From stdpp Require Import base numbers option list strings gmap fin_maps.

Local Open Scope Z_scope.
Local Open Scope string_scope.
Local Open Scope Qc_scope.

(** ** Python numbers *)

(** A decimal literal of the source, e.g. [dec 18.5]. *)
Definition dec (q : Q) : Qc := Q2Qc q.

(** An integer used as a number. *)
Definition num (z : Z) : Qc := Q2Qc (inject_Z z).

(** [int(x)]: truncation toward zero. *)
Definition py_int (x : Qc) : Z := Z.quot (Qnum x) (Zpos (Qden x)).

(** Nearest integer to [n / d], ties to even. *)
Definition round_half_even (n : Z) (d : positive) : Z :=
  let f := (n / Zpos d)%Z in
  let r := (n mod Zpos d)%Z in
  match (2 * r ?= Zpos d)%Z with
  | Lt => f
  | Gt => (f + 1)%Z
  | Eq => if Z.even f then f else (f + 1)%Z
  end.

(** [round(x, 2)]. *)
Definition py_round2 (x : Qc) : Qc :=
  Q2Qc (round_half_even (100 * Qnum x) (Qden x) # 100).

(** ** Exceptions and results *)

Inductive exn : Type :=
  | TypeError
  | AttributeError
  | ZeroDivisionError
  | OverflowError
  | KeyError (key : string)
  | ValueError (msg : string)
  | ValidationError
  | Exception (msg : string)
  | HTTPException (status_code : Z).

Inductive result (A : Type) : Type :=
  | Ok (a : A)
  | Raise (e : exn).
Arguments Ok {A} a.
Arguments Raise {A} e.

#[global] Instance result_ret : MRet result := fun _ a => Ok a.
#[global] Instance result_bind : MBind result := fun _ _ f m =>
  match m with
  | Ok a => f a
  | Raise e => Raise e
  end.
#[global] Instance result_fmap : FMap result := fun _ _ f m =>
  match m with
  | Ok a => Ok (f a)
  | Raise e => Raise e
  end.

(** [o] when it holds a value, the exception [e] otherwise. *)
Definition or_raise {A} (e : exn) (o : option A) : result A :=
  match o with
  | Some a => Ok a
  | None => Raise e
  end.

Definition is_Ok {A} (r : result A) : Prop := exists a, r = Ok a.

(** ** Python values *)

#[warnings="-register-all"]
Inductive value : Type :=
  | VNone
  | VBool (b : bool)
  | VNum (q : Qc)
  | VStr (s : string)
  | VList (l : list value)
  | VDict (m : gmap string value)
  | VDatetime (t : Z)
  | VObjectId (oid : string).

(** The number a value stands for in arithmetic ([bool] is a subclass of
    [int]); [None] for the values on which arithmetic with a float raises
    [TypeError]. *)
Definition as_num (v : value) : option Qc :=
  match v with
  | VNum q => Some q
  | VBool true => Some (num 1)
  | VBool false => Some (num 0)
  | _ => None
  end.

(** Truth value of an object, as [or], [if] and [not] test it. *)
Definition truthy (v : value) : bool :=
  match v with
  | VNone => false
  | VBool b => b
  | VNum q => bool_decide (q <> num 0)
  | VStr s => negb (String.eqb s "")
  | VList l => match l with [] => false | _ => true end
  | VDict m => negb (Nat.eqb (size m) 0)
  | VDatetime _ => true
  | VObjectId _ => true
  end.

(** [x or y]. *)
Definition py_or (x y : value) : value := if truthy x then x else y.

(** [v == s] for a string literal [s]. *)
Definition eq_str (v : value) (s : string) : bool :=
  match v with
  | VStr s' => String.eqb s' s
  | _ => false
  end.

(** [str.lower()] on the ASCII range. *)
Definition lower_ascii (c : ascii) : ascii :=
  let n := nat_of_ascii c in
  if (Nat.leb 65 n && Nat.leb n 90)%bool then ascii_of_nat (n + 32) else c.

Fixpoint lower (s : string) : string :=
  match s with
  | EmptyString => EmptyString
  | String c s' => String (lower_ascii c) (lower s')
  end.

(** [d[key]]. *)
Definition getitem (d : gmap string value) (key : string) : result value :=
  or_raise (KeyError key) (d !! key).

(** [d.get(key)] and [d.get(key, dflt)]. *)
Definition get (d : gmap string value) (key : string) : value :=
  default VNone (d !! key).
Definition get_default (d : gmap string value) (key : string) (dflt : value) : value :=
  default dflt (d !! key).

(** ** models.py: UserRegisterModel *)

Module Models.

(** A validated registration request.  The calculated fields of the class
    ([bmi], [bmr], ...) are never read by the code below and are left out. *)
Record UserRegisterModel : Type := {
  email : string;
  username : string;
  password : string;
  first_name : string;
  last_name : string;
  date_of_birth : Z;
  gender : string;
  height_cm : Qc;
  weight_kg : Qc;
  goal : string;
  target_weight_kg : option Qc;
  target_date : option Z;
  activity_level : string;
  gym_type : string;
  day_streak : Z;
  medical_conditions : option (list string);
  allergies : option (list string);
  medications : option (list string);
  dietary_restrictions : option (list string);
  daily_calorie_goal : option Z;
  age : option Z;
  created_at : option Z;
  updated_at : option Z
}.

(** The validator of [target_weight_kg]: [v] is the submitted value and
    [values] holds the fields validated before it. *)
Definition set_target_weight (v : value) (values : gmap string value) : result value :=
  match v with
  | VNone =>
      match values !! "goal", values !! "weight_kg" with
      | Some goal, Some weight_kg =>
          let w := or_raise TypeError (as_num weight_kg) in
          if eq_str goal "lose_weight" then w ← w; Ok (VNum (w - num 10))
          else if eq_str goal "gain_weight" then w ← w; Ok (VNum (w + num 10))
          else if eq_str goal "build_muscle" then w ← w; Ok (VNum (w + num 5))
          else Ok weight_kg
      | _, _ => Ok VNone
      end
  | _ => Ok v
  end.

End Models.

(** Attribute values of a model, as Python objects. *)
Definition opt_num (o : option Qc) : value := from_option VNum VNone o.
Definition opt_int (o : option Z) : value := from_option (fun z => VNum (num z)) VNone o.
Definition opt_datetime (o : option Z) : value := from_option VDatetime VNone o.
Definition str_list (l : list string) : value := VList (VStr <$> l).

(** The two kinds of argument [calculate_all_metrics] accepts. *)
Inductive user_data : Type :=
  | Model (m : Models.UserRegisterModel)
  | Dict (d : gmap string value).

(** ** services/user_service.py: UserCalculationService *)

Module UserCalculationService.

(** Arithmetic on an operand that is not a number raises [TypeError]. *)
Definition number (v : value) : result Qc := or_raise TypeError (as_num v).

Definition calculate_bmi (weight_kg height_cm : value) : result Qc :=
  h ← number height_cm;
  let height_m := h / num 100 in
  let height_m2 := height_m ^ 2 in
  w ← number weight_kg;
  if decide (height_m2 = num 0) then Raise ZeroDivisionError
  else Ok (py_round2 (w / height_m2)).

Definition get_bmi_status (bmi : Qc) : string :=
  if decide (bmi < dec 18.5) then "underweight"
  else if decide (dec 18.5 <= bmi /\ bmi < num 25) then "normal"
  else if decide (num 25 <= bmi /\ bmi < num 30) then "overweight"
  else "obese".

Definition calculate_recommended_weight (height_cm : value) (bmi_status : string)
  : result Qc :=
  h ← number height_cm;
  let height_m := h / num 100 in
  if String.eqb bmi_status "underweight" then
    Ok (py_round2 (num 20 * height_m ^ 2))
  else if String.eqb bmi_status "normal" then
    Ok (num 0)
  else
    Ok (py_round2 (num 24 * height_m ^ 2)).

Definition calculate_bmr (weight_kg height_cm age gender : value) : result Qc :=
  g ← match gender with VStr s => Ok (lower s) | _ => Raise AttributeError end;
  w ← number weight_kg;
  h ← number height_cm;
  a ← number age;
  let bmr :=
    if String.eqb g "male" then
      num 10 * w + dec 6.25 * h - num 5 * a + num 5
    else
      num 10 * w + dec 6.25 * h - num 5 * a - num 161 in
  Ok (py_round2 bmr).

Definition activity_multipliers : gmap string Qc :=
  {[ "sedentary" := dec 1.2;
     "light" := dec 1.375;
     "moderate" := dec 1.55;
     "active" := dec 1.725;
     "very_active" := dec 1.9 ]}.

(** [activity_multipliers.get(activity_level, 1.2)]: a list or a dict is not
    hashable and cannot be looked up; any other non-string key is absent. *)
Definition multiplier_of (activity_level : value) : result Qc :=
  match activity_level with
  | VStr s => Ok (default (dec 1.2) (activity_multipliers !! s))
  | VList _ | VDict _ => Raise TypeError
  | _ => Ok (dec 1.2)
  end.

Definition calculate_tdee (bmr : Qc) (activity_level : value) : result Qc :=
  multiplier ← multiplier_of activity_level;
  Ok (py_round2 (bmr * multiplier)).

Definition calculate_calorie_goal (tdee : Qc) (goal target_weight_kg : value)
    (current_weight_kg : Qc) : result Z :=
  if eq_str goal "lose_weight" then
    t ← number target_weight_kg;
    let weight_to_lose := current_weight_kg - t in
    if decide (num 10 < weight_to_lose) then
      Ok (py_int (tdee - num 750))
    else
      Ok (py_int (tdee - num 500))
  else if (eq_str goal "gain_weight" || eq_str goal "build_muscle")%bool then
    Ok (py_int (tdee + num 400))
  else
    Ok (py_int tdee).

(** The body of [calculate_all_metrics] after the seven inputs have been
    read from the model or from the dict. *)
Definition metrics_of
    (weight_kg height_cm age gender activity_level goal target_weight_kg : value)
  : result (gmap string value) :=
  bmi ← calculate_bmi weight_kg height_cm;
  let bmi_status := get_bmi_status bmi in
  recommended_weight ← calculate_recommended_weight height_cm bmi_status;
  w ← number weight_kg;
  let recommended_weight_change :=
    if decide (recommended_weight <> num 0) then recommended_weight - w else num 0 in
  bmr ← calculate_bmr weight_kg height_cm age gender;
  tdee ← calculate_tdee bmr activity_level;
  let target_weight := py_or target_weight_kg weight_kg in
  recommended_calories ← calculate_calorie_goal tdee goal target_weight w;
  Ok ({[ "bmi" := VNum bmi;
         "bmi_status" := VStr bmi_status;
         "recommended_weight_change" := VNum (py_round2 recommended_weight_change);
         "bmr" := VNum bmr;
         "tdee" := VNum tdee;
         "recommended_daily_calories" := VNum (num recommended_calories) ]}
      : gmap string value).

(** [hasattr(user_data, 'weight_kg')] holds for a model and fails for a dict,
    whose six subscripts raise [KeyError] on a missing key while
    [.get('target_weight_kg')] gives [None]. *)
Definition calculate_all_metrics (user_data : user_data) : result (gmap string value) :=
  match user_data with
  | Model m =>
      metrics_of (VNum m.(Models.weight_kg)) (VNum m.(Models.height_cm))
        (opt_int m.(Models.age)) (VStr m.(Models.gender))
        (VStr m.(Models.activity_level)) (VStr m.(Models.goal))
        (opt_num m.(Models.target_weight_kg))
  | Dict d =>
      weight_kg ← getitem d "weight_kg";
      height_cm ← getitem d "height_cm";
      age ← getitem d "age";
      gender ← getitem d "gender";
      activity_level ← getitem d "activity_level";
      goal ← getitem d "goal";
      let target_weight_kg := get d "target_weight_kg" in
      metrics_of weight_kg height_cm age gender activity_level goal target_weight_kg
  end.

End UserCalculationService.

(** ** services/user_service.py: calculate_calorie_goal over IEEE doubles *)

Module Binary64.

(** A Python [float] is an IEEE 754 binary64 and so is the primitive
    [float]: the operations round to nearest, ties to even, and a decimal
    literal denotes the nearest double. *)

(** The rational [(-1)^s * m * 2^e]. *)
Definition finite_value (s : bool) (m : positive) (e : Z) : Qc :=
  let n := if s then Zneg m else Zpos m in
  Q2Qc (if (0 <=? e)%Z then inject_Z (n * 2 ^ e)%Z
        else Qmake n (2 ^ Z.to_pos (- e))%positive).

(** The number a double stands for, when it is finite. *)
Definition exact (x : float) : option Qc :=
  match Prim2SF x with
  | S754_zero _ => Some (num 0)
  | S754_finite s m e => Some (finite_value s m e)
  | S754_infinity _ | S754_nan => None
  end.

(** [int(x)] on a float: the truncation of its exact value; an infinity
    raises [OverflowError] and NaN [ValueError]. *)
Definition py_int (x : float) : result Z :=
  match Prim2SF x with
  | S754_zero _ => Ok 0%Z
  | S754_finite s m e => Ok (py_int (finite_value s m e))
  | S754_infinity _ => Raise OverflowError
  | S754_nan => Raise (ValueError "cannot convert float NaN to integer")
  end.

(** The integer constants of the source are converted to the doubles of the
    same value before the arithmetic. *)
Definition calculate_calorie_goal (tdee : float) (goal : string)
    (target_weight_kg current_weight_kg : float) : result Z :=
  if String.eqb goal "lose_weight" then
    let weight_to_lose := (current_weight_kg - target_weight_kg)%float in
    if (10 <? weight_to_lose)%float then
      py_int (tdee - 750)%float
    else
      py_int (tdee - 500)%float
  else if (String.eqb goal "gain_weight" || String.eqb goal "build_muscle")%bool then
    py_int (tdee + 400)%float
  else
    py_int tdee.

End Binary64.


(** ** services/user_service.py: UserService *)

Module UserService.

Section Bcrypt.

(** [bcrypt.hashpw], an external library function: password and salt to
    hash string. *)
Variable bcrypt_hashpw : string -> string -> string.

(** [hash_password]; [salt] is what [bcrypt.gensalt()] returned in this
    call. *)
Definition hash_password (salt : string) (password : string) : string :=
  bcrypt_hashpw password salt.

Definition prepare_user_for_db (salt : string) (user_data : Models.UserRegisterModel)
  : result (gmap string value) :=
  metrics ← UserCalculationService.calculate_all_metrics (Model user_data);
  let password_hash := hash_password salt user_data.(Models.password) in
  bmi ← getitem metrics "bmi";
  bmi_status ← getitem metrics "bmi_status";
  recommended_weight_change ← getitem metrics "recommended_weight_change";
  recommended_daily_calories ← getitem metrics "recommended_daily_calories";
  bmr ← getitem metrics "bmr";
  tdee ← getitem metrics "tdee";
  Ok (list_to_map [
       ("email", VStr user_data.(Models.email));
       ("username", VStr user_data.(Models.username));
       ("password_hash", VStr password_hash);
       ("first_name", VStr user_data.(Models.first_name));
       ("last_name", VStr user_data.(Models.last_name));
       ("date_of_birth", VDatetime user_data.(Models.date_of_birth));
       ("gender", VStr user_data.(Models.gender));
       ("age", opt_int user_data.(Models.age));
       ("height_cm", VNum user_data.(Models.height_cm));
       ("weight_kg", VNum user_data.(Models.weight_kg));
       ("goal", VStr user_data.(Models.goal));
       ("target_weight_kg", opt_num user_data.(Models.target_weight_kg));
       ("target_date", opt_datetime user_data.(Models.target_date));
       ("activity_level", VStr user_data.(Models.activity_level));
       ("medical_conditions", str_list (default [] user_data.(Models.medical_conditions)));
       ("allergies", str_list (default [] user_data.(Models.allergies)));
       ("medications", str_list (default [] user_data.(Models.medications)));
       ("dietary_restrictions", str_list (default [] user_data.(Models.dietary_restrictions)));
       ("daily_calorie_goal", opt_int user_data.(Models.daily_calorie_goal));
       ("bmi", bmi);
       ("bmi_status", bmi_status);
       ("recommended_weight_change", recommended_weight_change);
       ("recommended_daily_calories", recommended_daily_calories);
       ("bmr", bmr);
       ("tdee", tdee);
       ("created_at", opt_datetime user_data.(Models.created_at));
       ("updated_at", opt_datetime user_data.(Models.updated_at));
       ("is_active", VBool true) ]
      : gmap string value).

End Bcrypt.

End UserService.

(** ** routes/auth/auth.py: update_user_profile *)

Module AuthRoutes.

(** The [users] collection, by the hexadecimal form of the document's
    [ObjectId]. *)
Abbreviation users := (gmap string (gmap string value)).

(** [update_one({"_id": oid}, {"$set": fields})]: the fields of the matching
    document are overwritten or added; nothing is inserted when no document
    matches. *)
Definition update_one_set (db : users) (oid : string) (fields : gmap string value) : users :=
  alter (fun doc => fields ∪ doc) oid db.

(** [except HTTPException: raise] / [except Exception: raise HTTPException(500)]. *)
Definition internal_server_error {A} (r : result A) : result A :=
  match r with
  | Ok a => Ok a
  | Raise (HTTPException c) => Raise (HTTPException c)
  | Raise _ => Raise (HTTPException 500)
  end.

Definition trigger_keys : list string :=
  ["weight_kg"; "height_cm"; "age"; "gender"; "activity_level"; "goal"].

(** [any(key in updates for key in [...])]. *)
Definition recalculate_metrics (updates : gmap string value) : bool :=
  existsb (fun key => bool_decide (is_Some (updates !! key))) trigger_keys.

(** The loop [for key, value in updates.items(): if key in user_data:
    user_data[key] = value], started on a copy of [current_user]. *)
Definition merge_updates (updates current_user : gmap string value) : gmap string value :=
  map_fold
    (fun key value user_data =>
       if decide (is_Some (user_data !! key)) then <[key:=value]> user_data else user_data)
    current_user updates.

(** The route from its first statement to the [update_one]: the result is
    the collection after the write.  [now] is what [datetime.utcnow()]
    returns in this call and [current_user] the document the authentication
    dependency read.  Documents of the store carry an [ObjectId] under
    [_id]; with any other value there no document matches and the request
    ends with status 500.  The statements after the [update_one] are
    [updated_profile_response] below. *)
Definition update_user_profile (now : Z) (updates current_user : gmap string value)
    (db : users) : result users :=
  internal_server_error (
    _id ← getitem current_user "_id";
    updates ←
      (if recalculate_metrics updates then
         let user_data := merge_updates updates current_user in
         metrics ← UserCalculationService.calculate_all_metrics (Dict user_data);
         Ok (metrics ∪ updates)
       else Ok updates);
    let updates := <["updated_at" := VDatetime now]> updates in
    match _id with
    | VObjectId oid => Ok (update_one_set db oid updates)
    | _ => Raise (HTTPException 500)
    end).

End AuthRoutes.

(** ** models/meal_models.py *)

Module MealModels.

Record MealItem : Type := {
  name : string;
  calories : Z;
  protein : Qc;
  carbs : Qc;
  fat : Qc;
  fiber : option Qc;
  description : option string;
  preparation_time : option Z;
  ingredients : list string;
  instructions : option string
}.

Record DayMealPlan : Type := {
  breakfast : list MealItem;
  lunch : list MealItem;
  dinner : list MealItem;
  snacks : list MealItem;
  total_calories : Z;
  total_protein : Qc;
  total_carbs : Qc;
  total_fat : Qc
}.

Record WeeklyMealPlan : Type := {
  id : string;
  user_id : string;
  week_start_date : Z;
  monday : DayMealPlan;
  tuesday : DayMealPlan;
  wednesday : DayMealPlan;
  thursday : DayMealPlan;
  friday : DayMealPlan;
  saturday : DayMealPlan;
  sunday : DayMealPlan;
  created_at : Z;
  updated_at : Z
}.

End MealModels.

(** ** services/gemini_service.py: create_weekly_meal_plan_model *)

Module GeminiMealPlanService.

Import MealModels.

(** A date is its proleptic Gregorian ordinal ([date.toordinal()]);
    [weekday()] is 0 on a Monday. *)
Definition weekday (d : Z) : Z := ((d + 6) mod 7)%Z.

Definition day_names : list string :=
  ["monday"; "tuesday"; "wednesday"; "thursday"; "friday"; "saturday"; "sunday"].

Section Pydantic.

(** The validation the pydantic library performs when a model is built is
    external to the repository: building a [MealItem] from the keys of a dict, an [int]
    field, a [float] field, and [ObjectId.is_valid] of bson. *)
Variable MealItem_init : gmap string value -> result MealItem.
Variable validate_int : value -> result Z.
Variable validate_float : value -> result Qc.
Variable ObjectId_is_valid : string -> bool.

(** How the installed pydantic calls a validator that a class yields from
    [__get_validators__]: version 1 calls it with the value alone
    ([false]); version 2 calls it with the value and an info object
    ([true]). *)
Variable validator_gets_info : bool.

(** [.get] on something that is not a dict raises [AttributeError]. *)
Definition as_dict (v : value) : result (gmap string value) :=
  match v with
  | VDict d => Ok d
  | _ => Raise AttributeError
  end.

(** The comprehension building a [MealItem] from every [meal] in [meals],
    each expanded as keyword arguments: a list is traversed; a dict yields
    its keys and a string its characters, which cannot be expanded
    ([TypeError]); the remaining values are not iterable. *)
Definition meal_items (meals : value) : result (list MealItem) :=
  match meals with
  | VList l =>
      mapM (fun meal =>
              match meal with
              | VDict m => MealItem_init m
              | _ => Raise TypeError
              end) l
  | VDict m => if Nat.eqb (size m) 0 then Ok [] else Raise TypeError
  | VStr s => if String.eqb s "" then Ok [] else Raise TypeError
  | _ => Raise TypeError
  end.

(** One iteration of the loop over the day names. *)
Definition day_meal_plan (meal_plan_data : gmap string value) (day_name : string)
  : result DayMealPlan :=
  day_data ← as_dict (get_default meal_plan_data day_name (VDict ∅));
  breakfast ← meal_items (get_default day_data "breakfast" (VList []));
  lunch ← meal_items (get_default day_data "lunch" (VList []));
  dinner ← meal_items (get_default day_data "dinner" (VList []));
  snacks ← meal_items (get_default day_data "snacks" (VList []));
  total_calories ← validate_int (get_default day_data "total_calories" (VNum (num 0)));
  total_protein ← validate_float (get_default day_data "total_protein" (VNum (num 0)));
  total_carbs ← validate_float (get_default day_data "total_carbs" (VNum (num 0)));
  total_fat ← validate_float (get_default day_data "total_fat" (VNum (num 0)));
  Ok {| breakfast := breakfast; lunch := lunch; dinner := dinner; snacks := snacks;
        total_calories := total_calories; total_protein := total_protein;
        total_carbs := total_carbs; total_fat := total_fat |}.

(** [PyObjectId.validate] of models.py.  An identifier is kept as the text
    of the [ObjectId], which is the lowercase hexadecimal form. *)
Definition PyObjectId_validate (v : string) : result string :=
  if ObjectId_is_valid v then Ok (lower v) else Raise (ValueError "Invalid objectid").

(** The validation of a field of type [PyObjectId].  [validate] is declared
    with the one parameter [v]: called with a second argument it raises
    [TypeError] before its body runs. *)
Definition PyObjectId_field (v : string) : result string :=
  if validator_gets_info then Raise TypeError else PyObjectId_validate v.

(** [except Exception as e: raise Exception(...)]. *)
Definition failed_to_create {A} (r : result A) : result A :=
  match r with
  | Ok a => Ok a
  | Raise _ => Raise (Exception "Failed to create meal plan model")
  end.

(** [today] is what [date.today()] returns, [fresh_id] the identifier the
    default factory of [id] draws, and [created] and [updated] what the two
    calls of [datetime.utcnow()] return, one for each time stamp. *)
Definition create_weekly_meal_plan_model (today : Z) (fresh_id : string)
    (created updated : Z) (user_id : string) (meal_plan_data : value)
  : result WeeklyMealPlan :=
  failed_to_create (
    let days_since_monday := weekday today in
    let week_start := (today - days_since_monday)%Z in
    data ← as_dict meal_plan_data;
    days ← mapM (day_meal_plan data) day_names;
    match days with
    | [mon; tue; wed; thu; fri; sat; sun] =>
        uid ← PyObjectId_field user_id;
        Ok {| id := fresh_id; user_id := uid; week_start_date := week_start;
              monday := mon; tuesday := tue; wednesday := wed; thursday := thu;
              friday := fri; saturday := sat; sunday := sun;
              created_at := created; updated_at := updated |}
    | _ => Raise TypeError
    end).

(** The day-plan of a weekly plan by the name of the day. *)
Definition day_of (plan : WeeklyMealPlan) (day_name : string) : option DayMealPlan :=
  if String.eqb day_name "monday" then Some plan.(monday)
  else if String.eqb day_name "tuesday" then Some plan.(tuesday)
  else if String.eqb day_name "wednesday" then Some plan.(wednesday)
  else if String.eqb day_name "thursday" then Some plan.(thursday)
  else if String.eqb day_name "friday" then Some plan.(friday)
  else if String.eqb day_name "saturday" then Some plan.(saturday)
  else if String.eqb day_name "sunday" then Some plan.(sunday)
  else None.

(** The day-plan with four empty meal slots and zero totals. *)
Definition empty_day : DayMealPlan :=
  {| breakfast := []; lunch := []; dinner := []; snacks := [];
     total_calories := 0; total_protein := num 0; total_carbs := num 0;
     total_fat := num 0 |}.

End Pydantic.

End GeminiMealPlanService.

Import UserCalculationService AuthRoutes MealModels GeminiMealPlanService.

(** ** Vocabulary of the statements and sample data *)

Definition truncation_of (x : Qc) (z : Z) : Prop :=
  (num 0 <= x -> num z <= x /\ x < num (z + 1)) /\
  (x <= num 0 -> num (z - 1) < x /\ x <= num z).

Definition input_keys : list string := trigger_keys ++ ["target_weight_kg"].
Definition calculated_keys : list string :=
  ["bmi"; "bmi_status"; "recommended_weight_change"; "recommended_daily_calories"; "bmr"; "tdee"].

Definition consistent (doc : gmap string value) : Prop :=
  exists metrics, calculate_all_metrics (Dict doc) = Ok metrics /\
    forall key, key ∈ calculated_keys -> doc !! key = metrics !! key.

(** A stored profile used in the examples. *)
Definition sample_oid : string := "65f1c0ffee65f1c0ffee0001".
Definition sample_profile : gmap string value :=
  list_to_map [
    ("_id", VObjectId sample_oid);
    ("email", VStr "a@example.org");
    ("gender", VStr "male");
    ("age", VNum (num 25));
    ("height_cm", VNum (num 175));
    ("weight_kg", VNum (num 90));
    ("goal", VStr "lose_weight");
    ("target_weight_kg", VNum (num 85));
    ("activity_level", VStr "moderate");
    ("day_streak", VNum (num 0));
    ("bmi", VNum (dec 29.39));
    ("bmi_status", VStr "overweight");
    ("recommended_weight_change", VNum (dec (-16.5)));
    ("recommended_daily_calories", VNum (num 2404));
    ("bmr", VNum (dec 1873.75));
    ("tdee", VNum (dec 2904.31));
    ("created_at", VDatetime 1000);
    ("updated_at", VDatetime 1000);
    ("is_active", VBool true) ].
Definition sample_db : users := {[ sample_oid := sample_profile ]}.

(** The same profile with a [bmi] that its inputs do not give. *)
Definition stale_profile : gmap string value := <["bmi" := VNum (num 99)]> sample_profile.
Definition stale_db : users := {[ sample_oid := stale_profile ]}.

Definition salt_visible (hashpw : string -> string -> string) : Prop :=
  forall password salt1 salt2, hashpw password salt1 = hashpw password salt2 -> salt1 = salt2.

Definition sample_registration : Models.UserRegisterModel :=
  {| Models.email := "a@example.org"; Models.username := "alice";
     Models.password := "correct horse"; Models.first_name := "Alice";
     Models.last_name := "Doe"; Models.date_of_birth := 0%Z;
     Models.gender := "female"; Models.height_cm := num 170; Models.weight_kg := num 65;
     Models.goal := "maintain_weight"; Models.target_weight_kg := Some (num 65);
     Models.target_date := None; Models.activity_level := "light";
     Models.gym_type := "without_gym"; Models.day_streak := 0%Z;
     Models.medical_conditions := Some []; Models.allergies := None;
     Models.medications := Some []; Models.dietary_restrictions := Some ["vegan"];
     Models.daily_calorie_goal := None; Models.age := Some 30%Z;
     Models.created_at := Some 1000%Z; Models.updated_at := Some 1000%Z |}.

(** What a weekly plan holds besides the values drawn from the
    environment ([id], [week_start_date], [created_at], [updated_at]). *)
Definition plan_content (plan : WeeklyMealPlan) : string * list DayMealPlan :=
  (plan.(user_id),
   [plan.(monday); plan.(tuesday); plan.(wednesday); plan.(thursday); plan.(friday);
    plan.(saturday); plan.(sunday)]).

(** A document without one of its fields, and a collection of such. *)
Definition without (key : string) (doc : gmap string value) : gmap string value :=
  delete key doc.
Definition all_without (key : string) (db : users) : users := without key <$> db.

(** An instance of the external validators, used to run the assembler on
    concrete payloads: integers must be whole numbers, floats any number, a
    meal needs its five required fields, an identifier has 24 characters. *)
Definition sample_validate_int (v : value) : result Z :=
  match v with
  | VNum q => if decide (num (py_int q) = q) then Ok (py_int q) else Raise ValidationError
  | _ => Raise ValidationError
  end.

Definition sample_validate_float (v : value) : result Qc :=
  match v with
  | VNum q => Ok q
  | _ => Raise ValidationError
  end.

Definition sample_MealItem_init (meal : gmap string value) : result MealItem :=
  match meal !! "name" with
  | Some (VStr n) =>
      c ← sample_validate_int (get meal "calories");
      p ← sample_validate_float (get meal "protein");
      cb ← sample_validate_float (get meal "carbs");
      f ← sample_validate_float (get meal "fat");
      Ok {| name := n; calories := c; protein := p; carbs := cb; fat := f;
            fiber := as_num (get meal "fiber"); description := None;
            preparation_time := None; ingredients := []; instructions := None |}
  | _ => Raise ValidationError
  end.

Definition sample_ObjectId_is_valid (s : string) : bool := Nat.eqb (String.length s) 24.

(** A payload with a Monday and nothing else. *)
Definition sample_payload : gmap string value :=
  {[ "monday" := VDict {[
       "breakfast" := VList [VDict {[ "name" := VStr "Oats"; "calories" := VNum (num 400);
                                      "protein" := VNum (num 25); "carbs" := VNum (num 45);
                                      "fat" := VNum (num 12) ]}];
       "total_calories" := VNum (num 400);
       "total_protein" := VNum (num 25) ]} ]}.

(** ** Further functions of the sources *)

(** *** services/user_service.py: UserService.get_user_response *)

(** A copy of the document with [password_hash] and [_id] popped. *)
Definition get_user_response (user_doc : gmap string value) : gmap string value :=
  delete "_id" (delete "password_hash" user_doc).

(** *** routes/auth/auth.py: the response of update_user_profile *)

(** What [json.dumps] accepts: [None], booleans, numbers, strings, and lists
    and dicts of such; a [datetime] or an [ObjectId] is not serializable. *)
Fixpoint json_serializable (v : value) : bool :=
  match v with
  | VList l => forallb json_serializable l
  | VDict m => map_fold (fun _ v acc => json_serializable v && acc) true m
  | VDatetime _ | VObjectId _ => false
  | VNone | VBool _ | VNum _ | VStr _ => true
  end.

(** [JSONResponse(content=...)] renders its content with [json.dumps] when
    it is built, and [json.dumps] raises [TypeError] on what it cannot
    serialize.  The response is represented by its content. *)
Definition JSONResponse (content : value) : result value :=
  if json_serializable content then Ok content else Raise TypeError.

(** The statements of [update_user_profile] after the [update_one], inside
    the same [try]: [db] is the collection after the write and [oid] the
    identifier of the authenticated user.  [find_one] gives [None] when no
    document matches, and [get_user_response] then fails on [None.copy()]. *)
Definition updated_profile_response (oid : string) (db : users) : result value :=
  internal_server_error (
    updated_user ← or_raise AttributeError (db !! oid);
    let response_data := get_user_response updated_user in
    JSONResponse (VDict {[ "message" := VStr "Profile updated successfully";
                           "user" := VDict response_data ]})).

(** The whole route: the collection it leaves behind and what the caller
    receives. *)
Definition update_user_profile_route (now : Z) (updates current_user : gmap string value)
    (db : users) : users * result value :=
  match update_user_profile now updates current_user db, current_user !! "_id" with
  | Ok db', Some (VObjectId oid) => (db', updated_profile_response oid db')
  | Ok db', _ => (db', Raise (HTTPException 500))
  | Raise e, _ => (db, Raise e)
  end.

(** *** models.py: UserRegisterModel.calculate_age *)

(** The calendar fields of a [datetime] that the validator reads. *)
Record date : Type := { year : Z; month : Z; day : Z }.

(** [(m1, d1) < (m2, d2)] on tuples. *)
Definition month_day_before (a b : date) : bool :=
  ((a.(month) <? b.(month)) || ((a.(month) =? b.(month)) && (a.(day) <? b.(day))))%Z%bool.

(** The validator of [age]: [v] is the submitted value, [date_of_birth] the
    validated field when [values] holds it, and [today] what
    [datetime.now()] returns. *)
Definition calculate_age (today : date) (v : option Z) (date_of_birth : option date)
  : option Z :=
  match v with
  | Some age => Some age
  | None =>
      match date_of_birth with
      | Some dob =>
          Some (today.(year) - dob.(year)
                - (if month_day_before today dob then 1 else 0))%Z
      | None => None
      end
  end.

(** Calendar order on dates, and the birthday [n] years after the birth. *)
Definition date_lt (a b : date) : Prop :=
  (a.(year) < b.(year) \/
   (a.(year) = b.(year) /\
    (a.(month) < b.(month) \/ (a.(month) = b.(month) /\ a.(day) < b.(day)))))%Z.

Definition date_le (a b : date) : Prop :=
  (a.(year) < b.(year) \/
   (a.(year) = b.(year) /\
    (a.(month) < b.(month) \/ (a.(month) = b.(month) /\ a.(day) <= b.(day)))))%Z.

Definition birthday (dob : date) (n : Z) : date :=
  {| year := dob.(year) + n; month := dob.(month); day := dob.(day) |}.

(** *** routes/auth/auth.py: the health-insight helpers *)

Definition interpretations : gmap string string :=
  {[ "underweight" := "Your BMI indicates you're underweight. Consider consulting with a healthcare provider about healthy weight gain strategies.";
     "normal" := "Great! Your BMI is in the healthy range. Maintain your current lifestyle with regular exercise and balanced nutrition.";
     "overweight" := "Your BMI indicates you're overweight. Consider a balanced approach with regular exercise and portion control.";
     "obese" := "Your BMI indicates obesity. We recommend consulting with a healthcare provider for a comprehensive weight management plan." ]}.

Definition get_bmi_interpretation (bmi_status : string) : string :=
  default "BMI status unknown" (interpretations !! bmi_status).

(** [abs(x)] on a number. *)
Definition py_abs (x : Qc) : Qc := if decide (x < num 0) then - x else x.

Section Formatting.

(** The format specification [.1f] of an f-string, a built-in. *)
Variable format_1f : Qc -> string.

Definition get_weight_guidance (goal : string) (recommended_change : Qc) : string :=
  if decide (py_abs recommended_change < num 1) then
    "Your current weight is in a healthy range for your height."
  else if decide (num 0 < recommended_change) then
    "For optimal health, consider gaining " ++ format_1f (py_abs recommended_change)
      ++ " kg through healthy nutrition and strength training."
  else
    "For optimal health, consider losing " ++ format_1f (py_abs recommended_change)
      ++ " kg through a balanced diet and regular exercise.".

End Formatting.

(** *** services/gemini_service.py: generate_meal_plan, from the response text on *)

(** Strings are sequences of one-byte characters; searching and slicing by
    the ASCII patterns below select the same text in a UTF-8 encoded
    response. *)

(** [sub in s]. *)
Definition contains (sub s : string) : bool :=
  match String.index 0 sub s with Some _ => true | None => false end.

(** [s.find(sub, start)] for a start inside the string. *)
Definition str_find (s sub : string) (start : Z) : Z :=
  match String.index (Z.to_nat start) sub s with
  | Some n => Z.of_nat n
  | None => (-1)%Z
  end.

(** The position of the last occurrence of [s1] in [s2]. *)
Fixpoint rindex (s1 s2 : string) : option nat :=
  match s2 with
  | EmptyString => if String.prefix s1 s2 then Some 0%nat else None
  | String _ s2' =>
      match rindex s1 s2' with
      | Some n => Some (S n)
      | None => if String.prefix s1 s2 then Some 0%nat else None
      end
  end.

(** [s.rfind(sub)]. *)
Definition str_rfind (s sub : string) : Z :=
  match rindex sub s with
  | Some n => Z.of_nat n
  | None => (-1)%Z
  end.

(** A slice bound as Python clamps it: a negative bound counts from the
    end. *)
Definition clamp (len i : Z) : Z :=
  if (i <? 0)%Z then Z.max 0 (i + len) else Z.min i len.

(** [s[start:stop]]. *)
Definition slice (s : string) (start stop : Z) : string :=
  let len := Z.of_nat (String.length s) in
  let a := clamp len start in
  let b := clamp len stop in
  substring (Z.to_nat a) (Z.to_nat (b - a)) s.

(** The ASCII characters for which [str.isspace] holds. *)
Definition is_space (c : ascii) : bool :=
  let n := nat_of_ascii c in
  ((Nat.leb 9 n && Nat.leb n 13) || (Nat.leb 28 n && Nat.leb n 32))%bool.

Fixpoint lstrip (s : string) : string :=
  match s with
  | EmptyString => EmptyString
  | String c s' => if is_space c then lstrip s' else s
  end.

Fixpoint rstrip (s : string) : string :=
  match s with
  | EmptyString => EmptyString
  | String c s' =>
      match rstrip s' with
      | EmptyString => if is_space c then EmptyString else String c EmptyString
      | r => String c r
      end
  end.

(** [s.strip()], for a text of ASCII characters. *)
Definition strip (s : string) : string := rstrip (lstrip s).

(** Whether every character of [s] is an ASCII character: then a character
    is one byte and [str.isspace] holds of the characters of [is_space]
    only. *)
Fixpoint is_ascii (s : string) : bool :=
  match s with
  | EmptyString => true
  | String c s' => (Nat.ltb (nat_of_ascii c) 128 && is_ascii s')%bool
  end.

(** Whether the character [c] occurs in [s], and [s] without its last
    character. *)
Fixpoint has_char (c : ascii) (s : string) : bool :=
  match s with
  | EmptyString => false
  | String b s' => if ascii_dec c b then true else has_char c s'
  end.

Fixpoint drop_last (s : string) : string :=
  match s with
  | EmptyString => EmptyString
  | String c EmptyString => EmptyString
  | String c s' => String c (drop_last s')
  end.

(** The text handed to [json.loads]. *)
Definition extract_json_text (response_text : string) : result string :=
  if contains "```json" response_text then
    let json_start := (str_find response_text "```json" 0 + 7)%Z in
    let json_end := str_find response_text "```" json_start in
    Ok (strip (slice response_text json_start json_end))
  else if contains "{" response_text then
    let json_start := str_find response_text "{" 0 in
    let json_end := (str_rfind response_text "}" + 1)%Z in
    Ok (slice response_text json_start json_end)
  else Raise (ValueError "No valid JSON found in response").

(** [except Exception as e: raise Exception(...)]. The message of the source
    goes on with the text of the exception it caught; the model keeps its
    fixed part. *)
Definition failed_to_generate {A} (r : result A) : result A :=
  match r with
  | Ok a => Ok a
  | Raise _ => Raise (Exception "Failed to generate meal plan")
  end.

Section Json.

(** [json.loads] of the standard library. *)
Variable json_loads : string -> result value.

(** [generate_meal_plan] once the model has answered: [response_text] is
    the text of the answer. *)
Definition generate_meal_plan (response_text : string) : result value :=
  failed_to_generate (
    json_text ← extract_json_text response_text;
    json_loads json_text).

End Json.

(** *** services/auth_service.py and middleware/auth_middleware.py *)

Section Tokens.

(** [jwt.decode] of python-jose with the service's key and algorithm:
    the claims of a token it accepts, [None] when it raises [JWTError]. *)
Variable jwt_decode : string -> option (gmap string value).

(** [ObjectId.is_valid] of bson on a string. *)
Variable ObjectId_is_valid : string -> bool.

Definition verify_token (token : string) : result (gmap string value) :=
  or_raise (HTTPException 401) (jwt_decode token).

Definition get_user_id_from_token (token : string) : result value :=
  payload ← verify_token token;
  match get payload "sub" with
  | VNone => Raise (HTTPException 401)
  | user_id => Ok user_id
  end.

(** [ObjectId(user_id)]: the key of the document in the collection, which
    is the lowercase hexadecimal form. *)
Definition ObjectId (user_id : value) : result string :=
  match user_id with
  | VStr s => if ObjectId_is_valid s then Ok (lower s) else Raise (Exception "InvalidId")
  | VObjectId oid => Ok oid
  | _ => Raise TypeError
  end.

(** [except HTTPException: raise] / [except Exception: raise HTTPException(401)]. *)
Definition unauthorized {A} (r : result A) : result A :=
  match r with
  | Ok a => Ok a
  | Raise (HTTPException c) => Raise (HTTPException c)
  | Raise _ => Raise (HTTPException 401)
  end.

(** [token] is the bearer credential of the request. *)
Definition get_current_user (token : string) (db : users) : result (gmap string value) :=
  unauthorized (
    user_id ← get_user_id_from_token token;
    oid ← ObjectId user_id;
    match db !! oid with
    | None => Raise (HTTPException 401)
    | Some user =>
        if negb (truthy (get_default user "is_active" (VBool true)))
        then Raise (HTTPException 401)
        else Ok user
    end).

End Tokens.

(** The exceptions the arithmetic of the engine can raise. *)
Definition engine_error (e : exn) : Prop :=
  e = TypeError \/ e = AttributeError \/ e = ZeroDivisionError.

(** * Properties *)

Lemma num_le z x : num z <= x <-> (z * Zpos (Qden x) <= Qnum x)%Z.
Proof.
  unfold Qcle, num. simpl. rewrite Qred_correct. unfold Qle. simpl. lia.
Qed.
Lemma le_num z x : x <= num z <-> (Qnum x <= z * Zpos (Qden x))%Z.
Proof.
  unfold Qcle, num. simpl. rewrite Qred_correct. unfold Qle. simpl. lia.
Qed.
Lemma num_lt z x : num z < x <-> (z * Zpos (Qden x) < Qnum x)%Z.
Proof.
  unfold Qclt, num. simpl. rewrite Qred_correct. unfold Qlt. simpl. lia.
Qed.
Lemma lt_num z x : x < num z <-> (Qnum x < z * Zpos (Qden x))%Z.
Proof.
  unfold Qclt, num. simpl. rewrite Qred_correct. unfold Qlt. simpl. lia.
Qed.

Lemma py_int_truncates x : truncation_of x (py_int x).
Proof.
  unfold truncation_of, py_int.
  rewrite !num_le, !le_num, !num_lt, !lt_num.
  destruct x as [[n d] Hc]; simpl.
  pose proof (Z.quot_rem' n (Zpos d)) as Hqr.
  pose proof (Z.rem_bound_abs n (Zpos d) ltac:(lia)) as Hb.
  pose proof (Z.rem_sign_mul n (Zpos d) ltac:(lia)) as Hsg.
  split; intros Hs.
  - assert (0 <= n `rem` Z.pos d)%Z.
    { destruct (Z.eq_dec n 0%Z) as [->|Hn]; [by rewrite Z.rem_0_l by lia|].
      destruct (Z_lt_le_dec (n `rem` Z.pos d) 0%Z); [|done]. nia. }
    lia.
  - assert (n `rem` Z.pos d <= 0)%Z.
    { destruct (Z.eq_dec n 0%Z) as [->|Hn]; [by rewrite Z.rem_0_l by lia|].
      destruct (Z_lt_le_dec 0%Z (n `rem` Z.pos d)); [|done]. nia. }
    lia.
Qed.

Lemma num_lt_num a b : num a < num b <-> (a < b)%Z.
Proof. unfold Qclt, num. simpl. rewrite !Qred_correct. unfold Qlt. simpl. lia. Qed.


Lemma bind_Ok {A B} (a : A) (f : A -> result B) : Ok a ≫= f = f a.
Proof. reflexivity. Qed.

Lemma bind_Raise {A B} (e : exn) (f : A -> result B) : Raise e ≫= f = Raise e.
Proof. reflexivity. Qed.

Ltac equal_up_to_canon :=
  lazymatch goal with
  | |- @eq Qc _ _ => apply Qc_is_canon; reflexivity
  | |- _ => first [reflexivity | f_equal; equal_up_to_canon]
  end.

Ltac by_computation := vm_compute; equal_up_to_canon.


(** Order of doubles: [x <= y] excludes [y < x]. *)
Lemma SFcompare_antisym (x y : spec_float) :
  SFcompare y x = option_map CompOpp (SFcompare x y).
Proof.
  destruct x as [[]|[]| |[] m1 e1], y as [[]|[]| |[] m2 e2]; try reflexivity; simpl;
    rewrite (Z.compare_antisym e1 e2); destruct (e1 ?= e2)%Z; simpl; try reflexivity;
    rewrite (Pos.compare_cont_antisym m1 m2 Eq); simpl; try reflexivity;
    destruct (Pos.compare_cont Eq m1 m2); reflexivity.
Qed.

Lemma leb_not_ltb (x y : float) : (x <=? y)%float = true -> (y <? x)%float = false.
Proof.
  rewrite leb_spec, ltb_spec. unfold SFleb, SFltb. rewrite (SFcompare_antisym (Prim2SF x)).
  destruct (SFcompare (Prim2SF x) (Prim2SF y)) as [[]|]; simpl; congruence.
Qed.

(** [int] of a finite double is the truncation of its value toward zero. *)
Lemma binary64_py_int_truncates (x : float) (q : Qc) :
  Binary64.exact x = Some q -> exists z, Binary64.py_int x = Ok z /\ truncation_of q z.
Proof.
  unfold Binary64.exact, Binary64.py_int.
  destruct (Prim2SF x) as [s|s| |s m e]; try discriminate; intros [= <-].
  - exists 0%Z. split; [reflexivity|]. exact (py_int_truncates (num 0)).
  - eexists. split; [reflexivity|]. apply py_int_truncates.
Qed.

(** C2.  Over doubles, as the code computes: [calculate_calorie_goal]
    returns [int(tdee - 750)] for lose_weight when the difference of the two
    weights is greater than 10, [int(tdee - 500)] for lose_weight when it is
    at most 10, [int(tdee + 400)] for gain_weight and build_muscle, and
    [int(tdee)] for every other goal; [int] is defined on every finite
    double and truncates its value toward zero. *)
Theorem calorie_goal_branches (tdee : float) (goal : string)
    (target_weight_kg current_weight_kg : float) :
  let r := Binary64.calculate_calorie_goal tdee goal target_weight_kg current_weight_kg in
  let weight_to_lose := (current_weight_kg - target_weight_kg)%float in
  (goal = "lose_weight" -> (10 <? weight_to_lose)%float = true ->
     r = Binary64.py_int (tdee - 750)%float) /\
  (goal = "lose_weight" -> (weight_to_lose <=? 10)%float = true ->
     r = Binary64.py_int (tdee - 500)%float) /\
  (goal = "gain_weight" \/ goal = "build_muscle" -> r = Binary64.py_int (tdee + 400)%float) /\
  (goal <> "lose_weight" -> goal <> "gain_weight" -> goal <> "build_muscle" ->
     r = Binary64.py_int tdee) /\
  (forall x q, Binary64.exact x = Some q ->
     exists z, Binary64.py_int x = Ok z /\ truncation_of q z).
Proof.
  intros r weight_to_lose. subst r weight_to_lose. unfold Binary64.calculate_calorie_goal.
  split_and!; [| | | |apply binary64_py_int_truncates].
  - intros -> Hd. simpl. by rewrite Hd.
  - intros -> Hd. simpl. by rewrite (leb_not_ltb _ _ Hd).
  - intros [-> | ->]; reflexivity.
  - intros H1 H2 H3.
    apply String.eqb_neq in H1, H2, H3. by rewrite H1, H2, H3.
Qed.

(** The figures of the specification, three truncations, and a pair of
    weights that are 64.4 and 54.4 as decimals: the doubles nearest to them
    differ by more than 10 and the larger deficit is taken. *)
#[warnings="-inexact-float"]
Example calorie_goal_spec_examples :
  Binary64.calculate_calorie_goal 2594 "lose_weight" 75 90 = Ok 1844%Z /\
  Binary64.calculate_calorie_goal 2594 "lose_weight" 85 90 = Ok 2094%Z /\
  Binary64.calculate_calorie_goal 2594 "build_muscle" 85 90 = Ok 2994%Z /\
  Binary64.calculate_calorie_goal 2594 "maintain_weight" 85 90 = Ok 2594%Z /\
  Binary64.py_int 2594.99 = Ok 2594%Z /\ Binary64.py_int (-0.99) = Ok 0%Z /\
  Binary64.py_int (-1.5) = Ok (-1)%Z /\
  Binary64.calculate_calorie_goal 2594 "lose_weight" 54.4 64.4 = Ok 1844%Z /\
  calculate_calorie_goal (num 2594) (VStr "lose_weight") (VNum (num 75)) (num 90) = Ok 1844%Z /\
  calculate_calorie_goal (num 2594) (VStr "lose_weight") (VNum (num 85)) (num 90) = Ok 2094%Z.
Proof. repeat split; vm_compute; reflexivity. Qed.

Lemma Qcminus_lt_r (x y z : Qc) : x < y -> x - z < y - z.
Proof.
  unfold Qclt, Qcminus, Qcplus. simpl. rewrite !Qred_correct.
  intros H. by apply Qplus_lt_l.
Qed.

(** C10, as amended.  For lose_weight the result is exactly
    [int(tdee - 750)] or [int(tdee - 500)], with no lower bound: it is
    negative whenever [tdee <= 499], hence for some positive [tdee]; between
    499 and 500 the smaller deficit truncates to 0. *)
Theorem calorie_goal_no_floor (tdee target_weight_kg current_weight_kg : Qc) :
  let r := calculate_calorie_goal tdee (VStr "lose_weight") (VNum target_weight_kg)
             current_weight_kg in
  (r = Ok (py_int (tdee - num 750)) \/ r = Ok (py_int (tdee - num 500))) /\
  (tdee <= num 499 -> exists z, r = Ok z /\ (z < 0)%Z) /\
  (num 499 < tdee -> tdee < num 500 -> r = Ok (py_int (tdee - num 500)) -> r = Ok 0%Z) /\
  (exists tdee0 z, num 0 < tdee0 /\
     calculate_calorie_goal tdee0 (VStr "lose_weight") (VNum (num 78)) (num 80) = Ok z /\
     (z < 0)%Z).
Proof.
  intros r. subst r. unfold calculate_calorie_goal. simpl.
  assert (forall c : Z, (500 <= c)%Z -> tdee <= num 499 -> (py_int (tdee - num c) < 0)%Z) as Hneg.
  { intros c Hc Ht.
    destruct (py_int_truncates (tdee - num c)) as [_ Hx].
    assert (tdee - num c <= num (-1)) as Hle.
    { apply Qcle_trans with (num 499 - num c).
      - apply Qcplus_le_compat; [done | apply Qcle_refl].
      - unfold Qcle, Qcminus, Qcplus, Qcopp, num. simpl.
        rewrite !Qred_correct. unfold Qle. simpl. lia. }
    destruct Hx as [Hlo _].
    { apply Qcle_trans with (num (-1)); [done | by vm_compute]. }
    assert (num (py_int (tdee - num c) - 1) < num (-1)) as Hlt
      by (eapply Qclt_le_trans; [exact Hlo | exact Hle]).
    apply (proj1 (num_lt_num _ _)) in Hlt. lia. }
  split_and!.
  - destruct (decide _); [by left | by right].
  - intros Ht. destruct (decide _); eexists; (split; [reflexivity|]); by apply Hneg.
  - intros Hlo Hhi ->. f_equal.
    destruct (py_int_truncates (tdee - num 500)) as [_ Hx].
    assert (num (-1) < tdee - num 500) as H1.
    { replace (num (-1)) with (num 499 - num 500) by (by apply Qc_is_canon).
      by apply Qcminus_lt_r. }
    assert (tdee - num 500 < num 0) as H2.
    { replace (num 0) with (num 500 - num 500) by (by apply Qc_is_canon).
      by apply Qcminus_lt_r. }
    destruct Hx as [Ha Hb]; [by apply Qclt_le_weak|].
    assert (num (py_int (tdee - num 500) - 1) < num 0) as Hc
      by (eapply Qclt_trans; [exact Ha | exact H2]).
    assert (num (-1) < num (py_int (tdee - num 500))) as Hd
      by (eapply Qclt_le_trans; [exact H1 | exact Hb]).
    apply (proj1 (num_lt_num _ _)) in Hc, Hd. lia.
  - exists (num 100), (-400)%Z. by vm_compute.
Qed.

(** C10, counterexample.  A [tdee] of 499.5 is below 500 and the weight to
    lose, 2 kg, is small, yet the result is 0 and not a negative integer; the
    doubles give the same. *)
Lemma tdee_just_below_500_gives_zero :
  num 0 < dec 499.5 /\ dec 499.5 < num 500 /\ num 80 - num 78 <= num 10 /\
  calculate_calorie_goal (dec 499.5) (VStr "lose_weight") (VNum (num 78)) (num 80) = Ok 0%Z /\
  Binary64.calculate_calorie_goal 499.5 "lose_weight" 78 80 = Ok 0%Z /\
  ~ (forall tdee : Qc, tdee < num 500 ->
       exists z, calculate_calorie_goal tdee (VStr "lose_weight") (VNum (num 78)) (num 80) = Ok z /\
                 (z < 0)%Z).
Proof.
  assert (calculate_calorie_goal (dec 499.5) (VStr "lose_weight") (VNum (num 78)) (num 80)
          = Ok 0%Z) as E by (vm_compute; reflexivity).
  split_and!; [by vm_compute | by vm_compute | by vm_compute | exact E | vm_compute; reflexivity |].
  intros H. destruct (H (dec 499.5)) as (z & Hz & Hneg); [by vm_compute|].
  rewrite E in Hz. injection Hz as <-. lia.
Qed.

Lemma num_100_neq_0 : num 100 <> num 0.
Proof. by vm_compute. Qed.




(** C7, as amended.  [calculate_bmr] takes the male formula when the
    gender, lowercased, is "male", and the other formula for every other
    gender; "other" and "female" give the same result. *)
Theorem bmr_by_lowercased_gender (weight_kg height_cm age : Qc) (gender : string) :
  let r g := calculate_bmr (VNum weight_kg) (VNum height_cm) (VNum age) (VStr g) in
  (lower gender = "male" ->
     r gender = Ok (py_round2 (num 10 * weight_kg + dec 6.25 * height_cm - num 5 * age + num 5))) /\
  (lower gender <> "male" ->
     r gender = Ok (py_round2 (num 10 * weight_kg + dec 6.25 * height_cm - num 5 * age - num 161))) /\
  r "other" = r "female".
Proof.
  intros r. subst r. unfold calculate_bmr. simpl.
  split_and!; [intros H | intros H | reflexivity].
  - by rewrite H.
  - apply String.eqb_neq in H. by rewrite H.
Qed.

(** C7, counterexample.  The gender "MALE" is not the value "male", yet it
    gets the male formula: 1673.75 instead of 1507.75. *)
Lemma bmr_uppercase_male_counts_as_male :
  "MALE" <> "male" /\
  calculate_bmr (VNum (num 70)) (VNum (num 175)) (VNum (num 25)) (VStr "MALE")
    = Ok (dec 1673.75) /\
  py_round2 (num 10 * num 70 + dec 6.25 * num 175 - num 5 * num 25 - num 161) = dec 1507.75 /\
  ~ (forall (weight_kg height_cm age : Qc) (gender : string), gender <> "male" ->
       calculate_bmr (VNum weight_kg) (VNum height_cm) (VNum age) (VStr gender)
       = Ok (py_round2 (num 10 * weight_kg + dec 6.25 * height_cm - num 5 * age - num 161))).
Proof.
  assert (calculate_bmr (VNum (num 70)) (VNum (num 175)) (VNum (num 25)) (VStr "MALE")
          = Ok (dec 1673.75)) as E.
  { by_computation. }
  assert (py_round2 (num 10 * num 70 + dec 6.25 * num 175 - num 5 * num 25 - num 161)
          = dec 1507.75) as F by by_computation.
  split_and!; [done | exact E | exact F |].
  intros H. specialize (H (num 70) (num 175) (num 25) "MALE" ltac:(done)).
  rewrite E, F in H. revert H. by vm_compute.
Qed.

Lemma merge_updates_lookup (updates current_user : gmap string value) (key : string) :
  merge_updates updates current_user !! key =
  match current_user !! key with
  | Some old => Some (default old (updates !! key))
  | None => None
  end.
Proof.
  unfold merge_updates. revert key.
  apply (map_fold_weak_ind (fun r m => forall key, r !! key =
    match current_user !! key with
    | Some old => Some (default old (m !! key))
    | None => None
    end)).
  - intros key. rewrite lookup_empty. by destruct (current_user !! key).
  - intros i x m r Hi IH key.
    destruct (decide (is_Some (r !! i))) as [Hs|Hn].
    + destruct (decide (i = key)) as [->|Hne].
      * rewrite !lookup_insert_eq. rewrite IH in Hs.
        destruct (current_user !! key); [done | by destruct Hs].
      * rewrite !lookup_insert_ne by done. apply IH.
    + rewrite IH. destruct (decide (i = key)) as [->|Hne].
      * rewrite IH in Hn. destruct (current_user !! key); [|done].
        exfalso. apply Hn. eauto.
      * by rewrite lookup_insert_ne by done.
Qed.

Lemma calculate_all_metrics_ext (d1 d2 : gmap string value) :
  (forall key, key ∈ input_keys -> d1 !! key = d2 !! key) ->
  calculate_all_metrics (Dict d1) = calculate_all_metrics (Dict d2).
Proof.
  intros H. unfold calculate_all_metrics, getitem, get.
  rewrite !(H "weight_kg"), !(H "height_cm"), !(H "age"), !(H "gender"),
    !(H "activity_level"), !(H "goal"), !(H "target_weight_kg");
    [reflexivity | unfold input_keys, trigger_keys; set_solver ..].
Qed.

Lemma bind_Ok_inv {A B} (m : result A) (f : A -> result B) (b : B) :
  m ≫= f = Ok b -> exists a, m = Ok a /\ f a = Ok b.
Proof. destruct m; [eauto | discriminate]. Qed.

Lemma metrics_of_shape w h a g al goal t metrics :
  metrics_of w h a g al goal t = Ok metrics ->
  exists v1 v2 v3 v4 v5 v6,
    metrics = {[ "bmi" := v1; "bmi_status" := v2; "recommended_weight_change" := v3;
                 "bmr" := v4; "tdee" := v5; "recommended_daily_calories" := v6 ]}.
Proof.
  unfold metrics_of. intros H.
  repeat (apply bind_Ok_inv in H as (? & _ & H)).
  injection H as <-. eauto 10.
Qed.

Lemma calculate_all_metrics_shape d metrics :
  calculate_all_metrics (Dict d) = Ok metrics ->
  exists v1 v2 v3 v4 v5 v6,
    metrics = {[ "bmi" := v1; "bmi_status" := v2; "recommended_weight_change" := v3;
                 "bmr" := v4; "tdee" := v5; "recommended_daily_calories" := v6 ]}.
Proof.
  unfold calculate_all_metrics. intros H.
  repeat (apply bind_Ok_inv in H as (? & _ & H)).
  injection H as <-. eauto 10.
Qed.

Lemma recalculate_metrics_false (updates : gmap string value) :
  recalculate_metrics updates = false <->
  forall key, key ∈ trigger_keys -> updates !! key = None.
Proof.
  unfold recalculate_metrics. rewrite <- not_true_iff_false, existsb_exists.
  split.
  - intros H key Hk. destruct (updates !! key) eqn:E; [|done].
    exfalso. apply H. exists key. split; [by apply list_elem_of_In|].
    apply bool_decide_eq_true. rewrite E. eauto.
  - intros H (key & Hk & Hs). apply list_elem_of_In in Hk.
    apply bool_decide_eq_true in Hs. rewrite (H key Hk) in Hs. by destruct Hs.
Qed.

Lemma recalculate_metrics_true (updates : gmap string value) :
  recalculate_metrics updates = true <->
  exists key, key ∈ trigger_keys /\ is_Some (updates !! key).
Proof.
  unfold recalculate_metrics. rewrite existsb_exists. split.
  - intros (key & Hk & Hs). exists key. split; [by apply list_elem_of_In|].
    by apply bool_decide_eq_true in Hs.
  - intros (key & Hk & Hs). exists key. split; [by apply list_elem_of_In|].
    by apply bool_decide_eq_true.
Qed.

Lemma update_one_set_found (db : users) oid fields doc :
  db !! oid = Some doc -> update_one_set db oid fields = <[oid := fields ∪ doc]> db.
Proof.
  intros H. unfold update_one_set. apply map_eq. intros k.
  destruct (decide (oid = k)) as [->|Hne].
  - by rewrite lookup_alter_eq, lookup_insert_eq, H.
  - by rewrite lookup_alter_ne, lookup_insert_ne.
Qed.

Lemma update_without_recalculation now updates current_user db oid :
  current_user !! "_id" = Some (VObjectId oid) ->
  recalculate_metrics updates = false ->
  update_user_profile now updates current_user db
  = Ok (update_one_set db oid (<["updated_at" := VDatetime now]> updates)).
Proof.
  intros Hid Hr. unfold update_user_profile, getitem. by rewrite Hid, Hr.
Qed.

Lemma update_with_recalculation now updates current_user db oid :
  current_user !! "_id" = Some (VObjectId oid) ->
  recalculate_metrics updates = true ->
  update_user_profile now updates current_user db
  = match calculate_all_metrics (Dict (merge_updates updates current_user)) with
    | Ok metrics =>
        Ok (update_one_set db oid (<["updated_at" := VDatetime now]> (metrics ∪ updates)))
    | Raise e => internal_server_error (Raise e)
    end.
Proof.
  intros Hid Hr. unfold update_user_profile, getitem. rewrite Hid, Hr.
  by destruct (calculate_all_metrics (Dict (merge_updates updates current_user))).
Qed.

Lemma calculated_key_cases (P : string -> Prop) :
  P "bmi" -> P "bmi_status" -> P "recommended_weight_change" ->
  P "recommended_daily_calories" -> P "bmr" -> P "tdee" ->
  forall key, key ∈ calculated_keys -> P key.
Proof.
  intros ?????? key Hk. unfold calculated_keys in Hk.
  repeat (apply elem_of_cons in Hk as [->|Hk]; [done|]). by apply elem_of_nil in Hk.
Qed.

Lemma input_key_cases (P : string -> Prop) :
  P "weight_kg" -> P "height_cm" -> P "age" -> P "gender" -> P "activity_level" ->
  P "goal" -> P "target_weight_kg" ->
  forall key, key ∈ input_keys -> P key.
Proof.
  intros ??????? key Hk. unfold input_keys, trigger_keys in Hk. simpl in Hk.
  repeat (apply elem_of_cons in Hk as [->|Hk]; [done|]). by apply elem_of_nil in Hk.
Qed.

Lemma metrics_lookup_calculated metrics d key :
  calculate_all_metrics (Dict d) = Ok metrics ->
  (key ∈ calculated_keys -> is_Some (metrics !! key)) /\
  (key ∉ calculated_keys -> metrics !! key = None).
Proof.
  intros (v1 & v2 & v3 & v4 & v5 & v6 & ->)%calculate_all_metrics_shape. split.
  - revert key. apply calculated_key_cases; by vm_compute; eauto.
  - intros Hk. unfold calculated_keys in Hk.
    repeat (apply not_elem_of_cons in Hk as [? Hk]).
    rewrite !lookup_insert_ne by done. by apply lookup_singleton_ne.
Qed.

Lemma sample_profile_consistent : consistent sample_profile.
Proof.
  exists (match calculate_all_metrics (Dict sample_profile) with
          | Ok metrics => metrics
          | Raise _ => ∅
          end).
  split; [vm_compute; reflexivity|].
  apply calculated_key_cases; by_computation.
Qed.

(** C5, as amended.  An update that names no trigger key is written as it
    is: [updated_at] becomes the current time, and every calculated field
    that the update map does not itself name keeps its stored value. *)
Theorem update_without_trigger_keeps_unnamed_fields
    (now : Z) (updates current_user : gmap string value) (db : users) (oid : string) :
  current_user !! "_id" = Some (VObjectId oid) ->
  db !! oid = Some current_user ->
  (forall key, key ∈ trigger_keys -> updates !! key = None) ->
  exists persisted,
    update_user_profile now updates current_user db = Ok (<[oid := persisted]> db) /\
    persisted !! "updated_at" = Some (VDatetime now) /\
    forall key, key ∈ calculated_keys -> updates !! key = None ->
      persisted !! key = current_user !! key.
Proof.
  intros Hid Hdb Hnone. apply recalculate_metrics_false in Hnone.
  eexists. split_and!.
  - rewrite (update_without_recalculation _ _ _ _ oid) by done.
    by rewrite (update_one_set_found _ _ _ current_user).
  - rewrite lookup_union_l'; [by rewrite lookup_insert_eq|].
    rewrite lookup_insert_eq. eauto.
  - apply (calculated_key_cases (fun key => updates !! key = None -> _));
      intros Hk; rewrite lookup_union_r; try done;
      by rewrite lookup_insert_ne.
Qed.

Lemma updated_at_not_calculated : "updated_at" ∉ calculated_keys.
Proof.
  unfold calculated_keys.
  repeat (apply not_elem_of_cons; split; [done|]). apply not_elem_of_nil.
Qed.

Lemma updated_at_not_input : "updated_at" ∉ input_keys.
Proof.
  unfold input_keys, trigger_keys. simpl.
  repeat (apply not_elem_of_cons; split; [done|]). apply not_elem_of_nil.
Qed.

Lemma input_not_calculated key : key ∈ input_keys -> key ∉ calculated_keys.
Proof.
  revert key. apply input_key_cases; unfold calculated_keys;
    repeat (apply not_elem_of_cons; split; [done|]); apply not_elem_of_nil.
Qed.

Lemma VNum_inj a b : VNum a = VNum b -> a = b.
Proof. by intros [= ->]. Qed.

(** C5, counterexample.  The update [{bmi: 99}] names no trigger key and
    replaces the stored [bmi]. *)
Lemma update_can_overwrite_calculated_field :
  let updates : gmap string value := {[ "bmi" := VNum (num 99) ]} in
  (forall key, key ∈ trigger_keys -> updates !! key = None) /\
  exists persisted,
    update_user_profile 2000 updates sample_profile sample_db
      = Ok (<[sample_oid := persisted]> sample_db) /\
    sample_profile !! "bmi" = Some (VNum (dec 29.39)) /\
    persisted !! "bmi" = Some (VNum (num 99)) /\
    persisted !! "bmi" <> sample_profile !! "bmi".
Proof.
  intros updates. split.
  { apply recalculate_metrics_false. reflexivity. }
  eexists. split_and!.
  - rewrite (update_without_recalculation _ _ _ _ sample_oid) by done.
    by rewrite (update_one_set_found _ _ _ sample_profile).
  - reflexivity.
  - reflexivity.
  - intros H. vm_compute in H. discriminate.
Qed.

Lemma Ok_inj {A} (a b : A) : Ok a = Ok b -> a = b.
Proof. by intros [= ->]. Qed.

(** A lookup of a literal key in a literal dict, by evaluation. *)
Lemma bind_Raise_inv {A B} (m : result A) (f : A -> result B) (e : exn) :
  m ≫= f = Raise e -> m = Raise e \/ exists a, m = Ok a /\ f a = Raise e.
Proof. destruct m; simpl; [right; eauto | intros [= ->]; by left]. Qed.

Lemma number_error v e : number v = Raise e -> engine_error e.
Proof.
  unfold number. destruct (as_num v); [discriminate|]. intros [= <-]. by left.
Qed.

Lemma metrics_of_error w h a g al goal t e :
  metrics_of w h a g al goal t = Raise e -> engine_error e.
Proof.
  unfold metrics_of, calculate_bmi, calculate_recommended_weight, calculate_bmr,
    calculate_tdee, multiplier_of, calculate_calorie_goal.
  intros H.
  repeat match type of H with
         | _ ≫= _ = Raise _ =>
             apply bind_Raise_inv in H as [H | (? & _ & H)]
         | number _ = Raise _ => by apply number_error in H
         | (if ?c then _ else _) = Raise _ => destruct c
         | (if ?c then _ else _) ≫= _ = Raise _ => destruct c
         | match ?v with _ => _ end = Raise _ => destruct v
         | match ?v with _ => _ end ≫= _ = Raise _ => destruct v
         | Raise _ = Raise _ => injection H as <-; unfold engine_error; by eauto
         | Ok _ = Raise _ => discriminate
         end.
Qed.

Lemma calculate_all_metrics_Model m :
  calculate_all_metrics (Model m)
  = metrics_of (VNum m.(Models.weight_kg)) (VNum m.(Models.height_cm))
      (opt_int m.(Models.age)) (VStr m.(Models.gender))
      (VStr m.(Models.activity_level)) (VStr m.(Models.goal))
      (opt_num m.(Models.target_weight_kg)).
Proof. reflexivity. Qed.

Lemma calculate_all_metrics_as_metrics_of user_data metrics :
  calculate_all_metrics user_data = Ok metrics ->
  exists w h a g al goal t, metrics_of w h a g al goal t = Ok metrics.
Proof.
  destruct user_data as [m|d].
  - rewrite calculate_all_metrics_Model. eauto 10.
  - unfold calculate_all_metrics. intros H.
    do 6 (apply bind_Ok_inv in H as (? & _ & H)). eauto 10.
Qed.

Lemma calculate_all_metrics_error user_data e :
  calculate_all_metrics user_data = Raise e ->
  (exists key, e = KeyError key) \/ engine_error e.
Proof.
  destruct user_data as [m|d].
  - rewrite calculate_all_metrics_Model. intros H. right. by apply metrics_of_error in H.
  - unfold calculate_all_metrics, getitem. intros H.
    do 6 (apply bind_Raise_inv in H as [H | (? & _ & H)];
          [unfold or_raise in H; destruct (d !! _); [discriminate | injection H as <-; eauto] |]).
    right. by apply metrics_of_error in H.
Qed.

Lemma internal_server_error_of_metrics user_data e :
  calculate_all_metrics user_data = Raise e ->
  internal_server_error (Raise e : result users) = Raise (HTTPException 500).
Proof.
  intros Hm. apply calculate_all_metrics_error in Hm.
  by destruct Hm as [[key ->] | [-> | [-> | ->]]].
Qed.

(** C6.  An update that names a trigger key and gives every input key it
    names the value already stored is recomputed all the same (the test is
    key membership): the calculated fields written are the metrics of the
    stored inputs, whatever was stored under them before, the time stamp is
    renewed, and the request fails with status 500 when the stored inputs
    give no metrics.  On a consistent profile the fields written equal the
    stored ones. *)
Theorem same_value_update_recomputes_identical_fields
    (now : Z) (updates current_user : gmap string value) (db : users) (oid : string) :
  current_user !! "_id" = Some (VObjectId oid) ->
  db !! oid = Some current_user ->
  (exists key, key ∈ trigger_keys /\ is_Some (updates !! key)) ->
  (forall key v, key ∈ input_keys -> updates !! key = Some v -> current_user !! key = Some v) ->
  recalculate_metrics updates = true /\
  match calculate_all_metrics (Dict current_user) with
  | Ok metrics =>
      exists persisted,
        update_user_profile now updates current_user db = Ok (<[oid := persisted]> db) /\
        persisted !! "updated_at" = Some (VDatetime now) /\
        (forall key, key ∈ calculated_keys -> persisted !! key = metrics !! key) /\
        (consistent current_user ->
         forall key, key ∈ calculated_keys -> persisted !! key = current_user !! key)
  | Raise _ =>
      update_user_profile now updates current_user db = Raise (HTTPException 500)
  end.
Proof.
  intros Hid Hdb Htrig Hsame.
  apply recalculate_metrics_true in Htrig. split; [done|].
  assert (calculate_all_metrics (Dict (merge_updates updates current_user))
          = calculate_all_metrics (Dict current_user)) as Hm'.
  { apply calculate_all_metrics_ext. intros key Hk.
    rewrite merge_updates_lookup. destruct (current_user !! key) as [old|] eqn:E; [|done].
    destruct (updates !! key) as [v|] eqn:Eu; [|done].
    simpl. rewrite (Hsame key v Hk Eu) in E. congruence. }
  rewrite (update_with_recalculation _ _ _ _ oid), Hm' by done.
  destruct (calculate_all_metrics (Dict current_user)) as [metrics|e] eqn:Hm.
  - assert (forall key, key ∈ calculated_keys ->
              (<["updated_at":=VDatetime now]> (metrics ∪ updates) ∪ current_user) !! key
              = metrics !! key) as Hwritten.
    { intros key Hk. destruct (metrics_lookup_calculated metrics _ key Hm) as [Hin _].
      destruct (Hin Hk) as [v Hv]. rewrite Hv.
      apply lookup_union_Some_l. rewrite lookup_insert_ne.
      + by apply lookup_union_Some_l.
      + intros <-. by apply updated_at_not_calculated in Hk. }
    eexists. split_and!.
    + by rewrite (update_one_set_found _ _ _ current_user).
    + apply lookup_union_Some_l. by rewrite lookup_insert_eq.
    + exact Hwritten.
    + intros (metrics' & Hm2 & Hc) key Hk.
      rewrite Hm in Hm2. apply Ok_inj in Hm2 as <-.
      by rewrite Hwritten, Hc.
  - by apply (internal_server_error_of_metrics _ _ Hm).
Qed.

(** C1, as amended.  For a stored profile that holds [target_weight_kg]:
    when the update names a trigger key, or names no input key and no
    calculated key on a consistent profile, the request either fails without
    writing or writes a document whose calculated fields are the metrics of
    its own seven inputs. *)
Theorem triggered_update_persists_consistent_metrics
    (now : Z) (updates current_user : gmap string value) (db : users) (oid : string) :
  current_user !! "_id" = Some (VObjectId oid) ->
  db !! oid = Some current_user ->
  is_Some (current_user !! "target_weight_kg") ->
  (exists key, key ∈ trigger_keys /\ is_Some (updates !! key)) \/
  (consistent current_user /\
   forall key, key ∈ (input_keys ++ calculated_keys)%list -> updates !! key = None) ->
  (exists persisted,
     update_user_profile now updates current_user db = Ok (<[oid := persisted]> db) /\
     consistent persisted) \/
  (exists e, update_user_profile now updates current_user db = Raise e).
Proof.
  intros Hid Hdb Htarget [Htrig | [(metrics & Hm & Hc) Hnone]].
  - apply recalculate_metrics_true in Htrig.
    rewrite (update_with_recalculation _ _ _ _ oid) by done.
    destruct (calculate_all_metrics (Dict (merge_updates updates current_user)))
      as [metrics|e] eqn:Hm; [left | right; destruct e; simpl; eauto].
    eexists. split; [by rewrite (update_one_set_found _ _ _ current_user)|].
    exists metrics. split.
    + rewrite <- Hm. apply calculate_all_metrics_ext. intros key Hk.
      pose proof (input_not_calculated key Hk) as Hnc.
      destruct (metrics_lookup_calculated metrics _ key Hm) as [_ Hout].
      rewrite lookup_union, lookup_insert_ne
        by (intros <-; by apply updated_at_not_input in Hk).
      rewrite lookup_union, (Hout Hnc), (left_id_L None _).
      rewrite merge_updates_lookup.
      destruct (current_user !! key) as [old|] eqn:E.
      * by destruct (updates !! key).
      * (* a missing input key: only possible for a required key, and then
           the computation on the merged data fails *)
        exfalso. clear Hnc Hout. revert key Hk E.
        apply (input_key_cases (fun key => current_user !! key = None -> False));
          intros E;
          try (unfold calculate_all_metrics, getitem in Hm;
               rewrite ?merge_updates_lookup in Hm;
               repeat (match type of Hm with
                       | context [current_user !! ?k] =>
                           destruct (current_user !! k) eqn:?; simpl in Hm; try discriminate
                       end); fail).
        rewrite E in Htarget. by destruct Htarget.
    + intros key Hk. destruct (metrics_lookup_calculated metrics _ key Hm) as [Hin _].
      destruct (Hin Hk) as [v Hv]. rewrite Hv.
      apply lookup_union_Some_l. rewrite lookup_insert_ne
        by (intros <-; by apply updated_at_not_calculated in Hk).
      by apply lookup_union_Some_l.
  - left. assert (recalculate_metrics updates = false) as Hr.
    { apply recalculate_metrics_false. intros key Hk. apply Hnone.
      apply elem_of_app. left. unfold input_keys. apply elem_of_app. by left. }
    rewrite (update_without_recalculation _ _ _ _ oid) by done.
    eexists. split; [by rewrite (update_one_set_found _ _ _ current_user)|].
    assert (forall key, key ∈ (input_keys ++ calculated_keys)%list ->
      (<["updated_at":=VDatetime now]> updates ∪ current_user) !! key = current_user !! key)
      as Hsame.
    { intros key Hk. rewrite lookup_union_r; [done|].
      rewrite lookup_insert_ne; [by apply Hnone|].
      intros <-. apply elem_of_app in Hk as [Hk|Hk].
      - by apply updated_at_not_input in Hk.
      - by apply updated_at_not_calculated in Hk. }
    exists metrics. split.
    + rewrite <- Hm. apply calculate_all_metrics_ext. intros key Hk.
      apply Hsame, elem_of_app. by left.
    + intros key Hk. rewrite Hsame by (apply elem_of_app; by right). by apply Hc.
Qed.

(** C1, counterexample.  The update [{target_weight_kg: 70}] names no
    trigger key: the new target is written next to the calorie figure 2404
    computed from the old one, while the written inputs give 2154. *)
Lemma target_only_update_leaves_stale_calories :
  let updates : gmap string value := {[ "target_weight_kg" := VNum (num 70) ]} in
  consistent sample_profile /\
  exists persisted metrics,
    update_user_profile 2000 updates sample_profile sample_db
      = Ok (<[sample_oid := persisted]> sample_db) /\
    persisted !! "target_weight_kg" = Some (VNum (num 70)) /\
    persisted !! "recommended_daily_calories" = Some (VNum (num 2404)) /\
    calculate_all_metrics (Dict persisted) = Ok metrics /\
    metrics !! "recommended_daily_calories" = Some (VNum (num 2154)) /\
    ~ consistent persisted.
Proof.
  intros updates. split; [exact sample_profile_consistent|].
  eexists.
  exists (match calculate_all_metrics
                  (Dict (<["updated_at" := VDatetime 2000]> updates ∪ sample_profile)) with
          | Ok metrics => metrics
          | Raise _ => ∅
          end).
  split_and!.
  - rewrite (update_without_recalculation _ _ _ _ sample_oid) by done.
    by rewrite (update_one_set_found _ _ _ sample_profile).
  - reflexivity.
  - reflexivity.
  - vm_compute; reflexivity.
  - by_computation.
  - intros (m & Hm & Hc).
    specialize (Hc "recommended_daily_calories" ltac:(repeat constructor)).
    match type of Hm with
    | ?c = _ =>
        assert (c ≫= (fun m => or_raise TypeError (m !! "recommended_daily_calories"))
                = Ok (VNum (num 2154))) as Hv by by_computation
    end.
    rewrite Hm, bind_Ok, <- Hc in Hv. vm_compute in Hv. discriminate.
Qed.

(** C4, the behaviour at a supplied target of 0.  [target_weight_kg or
    weight_kg] treats 0 like an absent target: with weight 90 and goal
    lose_weight the calorie figure is [int(tdee - 500)] = 2404, where the
    supplied target 0 would give [int(tdee - 750)] = 2154.  The validator
    [set_target_weight] of models.py tests [is not None] and keeps the 0. *)
Theorem zero_target_weight_is_replaced_by_current_weight :
  (forall weight_kg height_cm age gender activity_level goal,
     metrics_of weight_kg height_cm age gender activity_level goal (VNum (num 0))
     = metrics_of weight_kg height_cm age gender activity_level goal VNone) /\
  (exists metrics,
     calculate_all_metrics (Dict (<["target_weight_kg" := VNum (num 0)]> sample_profile))
       = Ok metrics /\
     metrics !! "tdee" = Some (VNum (dec 2904.31)) /\
     metrics !! "recommended_daily_calories" = Some (VNum (num 2404))) /\
  calculate_calorie_goal (dec 2904.31) (VStr "lose_weight") (VNum (num 0)) (num 90)
    = Ok 2154%Z /\
  (forall values, Models.set_target_weight (VNum (num 0)) values = Ok (VNum (num 0))).
Proof.
  split_and!.
  - reflexivity.
  - exists (match calculate_all_metrics
                    (Dict (<["target_weight_kg" := VNum (num 0)]> sample_profile)) with
            | Ok metrics => metrics
            | Raise _ => ∅
            end).
    split_and!; [vm_compute; reflexivity | by_computation | by_computation].
  - by_computation.
  - reflexivity.
Qed.

(** C9, counterexample.  With a hash that shows its salt, as bcrypt's does,
    two registrations of the same input under two salts give different
    records; two runs of the same update at different times give different
    documents. *)
Lemma registration_and_update_depend_on_ambient_values :
  (forall hashpw, salt_visible hashpw ->
     UserService.prepare_user_for_db hashpw "$2b$12$aaaaaaaaaaaaaaaaaaaaaa" sample_registration
     <> UserService.prepare_user_for_db hashpw "$2b$12$bbbbbbbbbbbbbbbbbbbbbb" sample_registration) /\
  update_user_profile 2000 {[ "day_streak" := VNum (num 5) ]} sample_profile sample_db
  <> update_user_profile 3000 {[ "day_streak" := VNum (num 5) ]} sample_profile sample_db.
Proof.
  split.
  - intros hashpw Hs H.
    apply (f_equal (fun r => match r with
                             | Ok doc => doc !! "password_hash"
                             | Raise _ => None
                             end)) in H.
    vm_compute in H. injection H as H. apply Hs in H. discriminate.
  - intros H.
    apply (f_equal (fun r => match r with
                             | Ok db => db !! sample_oid ≫= (.!! "updated_at")
                             | Raise _ => None
                             end)) in H.
    vm_compute in H. discriminate.
Qed.

Lemma delete_insert_union (k : string) (v : value) (u doc : gmap string value) :
  delete k (<[k := v]> u ∪ doc) = delete k (u ∪ doc).
Proof.
  apply map_eq. intros j. rewrite !lookup_delete. case_decide; [done|].
  by rewrite !lookup_union, lookup_insert_ne.
Qed.

Lemma update_one_set_without_updated_at (db : users) oid now (u : gmap string value) :
  delete "updated_at" <$> update_one_set db oid (<["updated_at" := VDatetime now]> u)
  = delete "updated_at" <$> update_one_set db oid u.
Proof.
  unfold update_one_set. apply map_eq. intros j.
  rewrite !lookup_fmap, !lookup_alter. case_decide; [|done].
  destruct (db !! oid); [|done]. simpl. f_equal. apply delete_insert_union.
Qed.

Lemma fmap_Ok {A B} (f : A -> B) (a : A) : f <$> Ok a = Ok (f a).
Proof. reflexivity. Qed.

(** C9, as amended.  The assemblers are functions of their inputs and of the
    values they draw from the environment, and each of those reaches only
    its own field: the salt only [password_hash], the clock of an update only
    [updated_at], and the date, identifier and clocks of a meal plan nothing
    of its owner and seven day-plans. *)
Theorem ambient_values_reach_only_their_own_fields :
  (forall (hashpw : string -> string -> string) (salt1 salt2 : string)
          (user : Models.UserRegisterModel),
     without "password_hash" <$> UserService.prepare_user_for_db hashpw salt1 user
     = without "password_hash" <$> UserService.prepare_user_for_db hashpw salt2 user) /\
  (forall (now1 now2 : Z) (updates current_user : gmap string value) (db : users),
     all_without "updated_at" <$> update_user_profile now1 updates current_user db
     = all_without "updated_at" <$> update_user_profile now2 updates current_user db) /\
  (forall (MealItem_init : gmap string value -> result MealItem)
          (validate_int : value -> result Z) (validate_float : value -> result Qc)
          (ObjectId_is_valid : string -> bool) (validator_gets_info : bool)
          (today1 today2 : Z) (fresh_id1 fresh_id2 : string)
          (created1 updated1 created2 updated2 : Z)
          (user_id : string) (meal_plan_data : value),
     plan_content <$> create_weekly_meal_plan_model MealItem_init validate_int validate_float
                        ObjectId_is_valid validator_gets_info
                        today1 fresh_id1 created1 updated1 user_id meal_plan_data
     = plan_content <$> create_weekly_meal_plan_model MealItem_init validate_int validate_float
                          ObjectId_is_valid validator_gets_info
                          today2 fresh_id2 created2 updated2 user_id meal_plan_data).
Proof.
  split_and!.
  - intros hashpw salt1 salt2 user. unfold UserService.prepare_user_for_db.
    destruct (calculate_all_metrics (Model user)) as [metrics|]; [|reflexivity].
    rewrite !bind_Ok.
    destruct (getitem metrics "bmi"); [rewrite !bind_Ok|reflexivity].
    destruct (getitem metrics "bmi_status"); [rewrite !bind_Ok|reflexivity].
    destruct (getitem metrics "recommended_weight_change"); [rewrite !bind_Ok|reflexivity].
    destruct (getitem metrics "recommended_daily_calories"); [rewrite !bind_Ok|reflexivity].
    destruct (getitem metrics "bmr"); [rewrite !bind_Ok|reflexivity].
    destruct (getitem metrics "tdee"); [rewrite !bind_Ok|reflexivity].
    rewrite !fmap_Ok. apply (f_equal Ok). unfold without. reflexivity.
  - intros now1 now2 updates current_user db. unfold update_user_profile.
    destruct (getitem current_user "_id") as [_id|]; [|reflexivity]. rewrite !bind_Ok.
    destruct (if recalculate_metrics updates then _ else _) as [u|]; [|reflexivity].
    rewrite !bind_Ok. destruct _id; try reflexivity.
    unfold internal_server_error. rewrite !fmap_Ok. apply (f_equal Ok).
    unfold all_without, without. by rewrite !update_one_set_without_updated_at.
  - intros. unfold create_weekly_meal_plan_model.
    destruct (as_dict meal_plan_data) as [data|]; [|reflexivity]. rewrite !bind_Ok.
    destruct (mapM _ day_names) as [days|]; [|reflexivity]. rewrite !bind_Ok.
    do 8 (destruct days as [|? days]; try reflexivity).
    destruct (PyObjectId_field _ _ _); reflexivity.
Qed.

Section MealPlan.

Variable MealItem_init : gmap string value -> result MealItem.
Variable validate_int : value -> result Z.
Variable validate_float : value -> result Qc.
Variable ObjectId_is_valid : string -> bool.

Hypothesis validate_int_zero : validate_int (VNum (num 0)) = Ok 0%Z.
Hypothesis validate_float_zero : validate_float (VNum (num 0)) = Ok (num 0).

Lemma day_meal_plan_missing (meal_plan_data : gmap string value) (day_name : string) :
  meal_plan_data !! day_name = None ->
  day_meal_plan MealItem_init validate_int validate_float meal_plan_data day_name
  = Ok empty_day.
Proof using validate_int_zero validate_float_zero.
  intros H. unfold day_meal_plan, get_default. rewrite H. simpl.
  rewrite !lookup_empty. simpl.
  by rewrite validate_int_zero, validate_float_zero.
Qed.

End MealPlan.

Lemma day_name_cases (P : string -> Prop) :
  P "monday" -> P "tuesday" -> P "wednesday" -> P "thursday" -> P "friday" ->
  P "saturday" -> P "sunday" ->
  forall day_name, day_name ∈ day_names -> P day_name.
Proof.
  intros ??????? d Hd. unfold day_names in Hd.
  repeat (apply elem_of_cons in Hd as [->|Hd]; [done|]). by apply elem_of_nil in Hd.
Qed.


(** X25.  When the validators are called with the value alone, as pydantic
    1 calls them, the days that are present are well formed and the owner's
    identifier is valid, the assembly succeeds whatever day keys are missing,
    and every missing day is the day-plan with four empty meal slots and zero
    totals. *)
Theorem missing_days_become_empty_day_plans
    (MealItem_init : gmap string value -> result MealItem)
    (validate_int : value -> result Z) (validate_float : value -> result Qc)
    (ObjectId_is_valid : string -> bool)
    (today : Z) (fresh_id : string) (created updated : Z) (user_id : string)
    (meal_plan_data : gmap string value) :
  validate_int (VNum (num 0)) = Ok 0%Z ->
  validate_float (VNum (num 0)) = Ok (num 0) ->
  ObjectId_is_valid user_id = true ->
  (forall day_name, day_name ∈ day_names -> is_Some (meal_plan_data !! day_name) ->
     is_Ok (day_meal_plan MealItem_init validate_int validate_float meal_plan_data day_name)) ->
  exists plan,
    create_weekly_meal_plan_model MealItem_init validate_int validate_float ObjectId_is_valid
      false today fresh_id created updated user_id (VDict meal_plan_data) = Ok plan /\
    forall day_name, day_name ∈ day_names -> meal_plan_data !! day_name = None ->
      day_of plan day_name = Some empty_day.
Proof.
  intros Hint Hfloat Huid Hpresent.
  assert (forall day_name, day_name ∈ day_names ->
            exists day,
              day_meal_plan MealItem_init validate_int validate_float meal_plan_data day_name
                = Ok day /\
              (meal_plan_data !! day_name = None -> day = empty_day)) as Hday.
  { intros d Hd. destruct (meal_plan_data !! d) as [v|] eqn:E.
    - destruct (Hpresent d Hd) as [day Hday]; [by rewrite E|]. exists day. by split.
    - exists empty_day. split; [|done]. by apply day_meal_plan_missing. }
  destruct (Hday "monday") as (mon & Emon & Hmon); [repeat constructor|].
  destruct (Hday "tuesday") as (tue & Etue & Htue); [repeat constructor|].
  destruct (Hday "wednesday") as (wed & Ewed & Hwed); [repeat constructor|].
  destruct (Hday "thursday") as (thu & Ethu & Hthu); [repeat constructor|].
  destruct (Hday "friday") as (fri & Efri & Hfri); [repeat constructor|].
  destruct (Hday "saturday") as (sat & Esat & Hsat); [repeat constructor|].
  destruct (Hday "sunday") as (sun & Esun & Hsun); [repeat constructor|].
  eexists. split.
  - unfold create_weekly_meal_plan_model, as_dict, day_names, PyObjectId_field,
      PyObjectId_validate.
    rewrite bind_Ok. cbn [mapM].
    rewrite Emon, Etue, Ewed, Ethu, Efri, Esat, Esun, Huid. reflexivity.
  - apply (day_name_cases (fun d => meal_plan_data !! d = None -> day_of _ d = Some empty_day));
      intros E; unfold day_of; simpl; f_equal; auto.
Qed.

Lemma missing_days_become_empty_day_plans_witness :
  exists plan,
    create_weekly_meal_plan_model sample_MealItem_init sample_validate_int
      sample_validate_float sample_ObjectId_is_valid false
      739000 "65f1c0ffee65f1c0ffee0002" 5000 5001 sample_oid (VDict sample_payload) = Ok plan /\
    forall day_name, day_name ∈ day_names -> sample_payload !! day_name = None ->
      day_of plan day_name = Some empty_day.
Proof.
  apply missing_days_become_empty_day_plans.
  - by_computation.
  - by_computation.
  - reflexivity.
  - apply (day_name_cases (fun d => is_Some (sample_payload !! d) -> _));
      intros [v Hv]; try (vm_compute in Hv; discriminate).
    eexists. by_computation.
Defined.

Lemma update_without_trigger_keeps_unnamed_fields_witness :
  exists persisted,
    update_user_profile 2000 {[ "day_streak" := VNum (num 5) ]} sample_profile sample_db
      = Ok (<[sample_oid := persisted]> sample_db) /\
    persisted !! "updated_at" = Some (VDatetime 2000) /\
    forall key, key ∈ calculated_keys ->
      ({[ "day_streak" := VNum (num 5) ]} : gmap string value) !! key = None ->
      persisted !! key = sample_profile !! key.
Proof.
  apply (update_without_trigger_keeps_unnamed_fields 2000
           {[ "day_streak" := VNum (num 5) ]} sample_profile sample_db sample_oid).
  - reflexivity.
  - reflexivity.
  - apply recalculate_metrics_false. reflexivity.
Defined.

Lemma same_value_update_recomputes_identical_fields_witness :
  recalculate_metrics {[ "weight_kg" := VNum (num 90) ]} = true /\
  exists persisted,
    update_user_profile 2000 {[ "weight_kg" := VNum (num 90) ]} stale_profile stale_db
      = Ok (<[sample_oid := persisted]> stale_db) /\
    stale_profile !! "bmi" = Some (VNum (num 99)) /\
    persisted !! "bmi" = Some (VNum (dec 29.39)) /\
    persisted !! "updated_at" = Some (VDatetime 2000).
Proof.
  assert (stale_profile !! "_id" = Some (VObjectId sample_oid)) as Hid
    by (vm_compute; reflexivity).
  assert (stale_db !! sample_oid = Some stale_profile) as Hdb by apply lookup_singleton_eq.
  assert (exists key, key ∈ trigger_keys /\
            is_Some (({[ "weight_kg" := VNum (num 90) ]} : gmap string value) !! key)) as Htrig.
  { exists "weight_kg". split; [repeat constructor | by eexists]. }
  assert (forall key v, key ∈ input_keys ->
            ({[ "weight_kg" := VNum (num 90) ]} : gmap string value) !! key = Some v ->
            stale_profile !! key = Some v) as Hsame.
  { intros key v _ Hv. destruct (decide (key = "weight_kg")) as [->|Hne].
    - rewrite lookup_singleton_eq in Hv. injection Hv as <-. vm_compute; reflexivity.
    - by rewrite lookup_singleton_ne in Hv. }
  destruct (same_value_update_recomputes_identical_fields 2000
              {[ "weight_kg" := VNum (num 90) ]} stale_profile stale_db sample_oid
              Hid Hdb Htrig Hsame) as [Hr H].
  split; [exact Hr|].
  assert (calculate_all_metrics (Dict stale_profile)
          = Ok (match calculate_all_metrics (Dict stale_profile) with
                | Ok metrics => metrics
                | Raise _ => ∅
                end)) as E by (vm_compute; reflexivity).
  rewrite E in H. destruct H as (persisted & Hup & Hts & Hm & _).
  exists persisted. split_and!; [exact Hup | vm_compute; reflexivity | | exact Hts].
  rewrite Hm by repeat constructor. vm_compute. apply f_equal, f_equal, Qc_is_canon. reflexivity.
Defined.

Lemma triggered_update_persists_consistent_metrics_witness :
  (exists persisted,
     update_user_profile 2000 {[ "weight_kg" := VNum (num 80) ]} sample_profile sample_db
       = Ok (<[sample_oid := persisted]> sample_db) /\
     consistent persisted) \/
  (exists e,
     update_user_profile 2000 {[ "weight_kg" := VNum (num 80) ]} sample_profile sample_db
       = Raise e).
Proof.
  apply (triggered_update_persists_consistent_metrics 2000
           {[ "weight_kg" := VNum (num 80) ]} sample_profile sample_db sample_oid).
  - reflexivity.
  - reflexivity.
  - by eexists.
  - left. exists "weight_kg". split; [repeat constructor | by eexists].
Defined.

(** * Further properties *)

(** ** Further properties of the metrics engine *)

(** Order facts between a number and literals, decided on the fractions. *)
Ltac qc_order :=
  repeat match goal with H : _ /\ _ |- _ => destruct H end;
  unfold Qclt, Qcle in *; simpl in *; rewrite ?Qred_correct in *;
  unfold Qlt, Qle in *; simpl in *; lia.

(** X1.  [get_bmi_status] partitions the numbers at 18.5, 25 and 30, each
    boundary belonging to the upper class. *)
Theorem bmi_status_thresholds (bmi : Qc) :
  (get_bmi_status bmi = "underweight" <-> bmi < dec 18.5) /\
  (get_bmi_status bmi = "normal" <-> dec 18.5 <= bmi /\ bmi < num 25) /\
  (get_bmi_status bmi = "overweight" <-> num 25 <= bmi /\ bmi < num 30) /\
  (get_bmi_status bmi = "obese" <-> num 30 <= bmi).
Proof.
  unfold get_bmi_status.
  repeat destruct (decide _);
    repeat match goal with
           | H : ~ (_ /\ _) |- _ => apply not_and_l in H as [H|H]
           | H : ~ (_ < _) |- _ => apply Qcnot_lt_le in H
           | H : ~ (_ <= _) |- _ => apply Qcnot_le_lt in H
           end;
    split_and!; (split; intros ?);
    first [ reflexivity | discriminate | qc_order | split; qc_order | exfalso; qc_order ].
Qed.

(** X2.  A value that is not one of the five known level names and is not
    a list or a dict (which cannot be looked up) gets the sedentary
    multiplier 1.2, silently. *)
Theorem tdee_unknown_level_is_sedentary (bmr : Qc) (activity_level : value) :
  (forall s, activity_level = VStr s ->
     s ∉ ["sedentary"; "light"; "moderate"; "active"; "very_active"]) ->
  (forall l, activity_level <> VList l) ->
  (forall m, activity_level <> VDict m) ->
  calculate_tdee bmr activity_level = Ok (py_round2 (bmr * dec 1.2)) /\
  calculate_tdee bmr activity_level = calculate_tdee bmr (VStr "sedentary").
Proof.
  intros Hs Hl Hm.
  assert (multiplier_of activity_level = Ok (dec 1.2)) as E.
  { destruct activity_level as [| | |s|l|m| |]; try reflexivity.
    - specialize (Hs s eq_refl). unfold multiplier_of, activity_multipliers.
      repeat (apply not_elem_of_cons in Hs as [? Hs]).
      rewrite !lookup_insert_ne by done. by rewrite lookup_singleton_ne.
    - by destruct (Hl l).
    - by destruct (Hm m). }
  unfold calculate_tdee. rewrite E. split; reflexivity.
Qed.

Lemma tdee_unknown_level_is_sedentary_witness :
  calculate_tdee (dec 1673.75) (VStr "unknown_value")
    = Ok (py_round2 (dec 1673.75 * dec 1.2)) /\
  calculate_tdee (dec 1673.75) (VStr "unknown_value")
    = calculate_tdee (dec 1673.75) (VStr "sedentary").
Proof.
  apply tdee_unknown_level_is_sedentary.
  - intros s [= <-]. repeat (apply not_elem_of_cons; split; [done|]). apply not_elem_of_nil.
  - done.
  - done.
Defined.

(** X3.  When it succeeds, [calculate_all_metrics] returns exactly the six
    calculated keys: merging its result into another dict never touches an
    input field. *)
Theorem metrics_hold_exactly_the_calculated_keys
    (user_data : user_data) (metrics : gmap string value) (key : string) :
  calculate_all_metrics user_data = Ok metrics ->
  is_Some (metrics !! key) <-> key ∈ calculated_keys.
Proof.
  intros (w & h & a & g & al & goal & t & H)%calculate_all_metrics_as_metrics_of.
  apply metrics_of_shape in H as (v1 & v2 & v3 & v4 & v5 & v6 & ->).
  split.
  - intros Hs. destruct (decide (key ∈ calculated_keys)) as [|Hk]; [done|].
    exfalso. unfold calculated_keys in Hk.
    repeat (apply not_elem_of_cons in Hk as [? Hk]).
    rewrite !lookup_insert_ne, lookup_singleton_ne in Hs by done. by destruct Hs.
  - revert key. apply calculated_key_cases; by vm_compute; eauto.
Qed.

Lemma metrics_hold_exactly_the_calculated_keys_witness :
  is_Some ((match calculate_all_metrics (Dict sample_profile) with
            | Ok metrics => metrics
            | Raise _ => ∅
            end) !! "weight_kg") <-> "weight_kg" ∈ calculated_keys.
Proof.
  apply (metrics_hold_exactly_the_calculated_keys (Dict sample_profile)).
  vm_compute; reflexivity.
Defined.

(** X4.  On a dict, a missing required key is reported by [KeyError] before
    anything is computed, and when the six required keys are present no
    [KeyError] is raised, with or without [target_weight_kg]. *)
Theorem missing_input_key_raises_KeyError :
  (forall (d : gmap string value) (key : string),
     key ∈ trigger_keys -> d !! key = None ->
     exists missing, missing ∈ trigger_keys /\ d !! missing = None /\
       calculate_all_metrics (Dict d) = Raise (KeyError missing)) /\
  (forall (d : gmap string value) (key : string),
     (forall k, k ∈ trigger_keys -> is_Some (d !! k)) ->
     calculate_all_metrics (Dict d) <> Raise (KeyError key)).
Proof.
  split.
  - intros d key Hk Hnone. unfold calculate_all_metrics, getitem.
    destruct (d !! "weight_kg") eqn:E1;
      [|exists "weight_kg"; split_and!; [repeat constructor | done | done]].
    destruct (d !! "height_cm") eqn:E2;
      [|exists "height_cm"; split_and!; [repeat constructor | done | done]].
    destruct (d !! "age") eqn:E3;
      [|exists "age"; split_and!; [repeat constructor | done | done]].
    destruct (d !! "gender") eqn:E4;
      [|exists "gender"; split_and!; [repeat constructor | done | done]].
    destruct (d !! "activity_level") eqn:E5;
      [|exists "activity_level"; split_and!; [repeat constructor | done | done]].
    destruct (d !! "goal") eqn:E6;
      [|exists "goal"; split_and!; [repeat constructor | done | done]].
    exfalso. unfold trigger_keys in Hk.
    repeat (apply elem_of_cons in Hk as [->|Hk]; [congruence|]).
    by apply elem_of_nil in Hk.
  - intros d key Hall. unfold calculate_all_metrics, getitem.
    destruct (Hall "weight_kg") as [? ->]; [repeat constructor|].
    destruct (Hall "height_cm") as [? ->]; [repeat constructor|].
    destruct (Hall "age") as [? ->]; [repeat constructor|].
    destruct (Hall "gender") as [? ->]; [repeat constructor|].
    destruct (Hall "activity_level") as [? ->]; [repeat constructor|].
    destruct (Hall "goal") as [? ->]; [repeat constructor|].
    simpl. intros H. apply metrics_of_error in H.
    by destruct H as [H | [H | H]].
Qed.

Lemma py_round2_zero : py_round2 (num 0) = num 0.
Proof. by apply Qc_is_canon. Qed.

(** X5.  Whenever the computed status is "normal" the recommended weight
    change is exactly 0. *)
Theorem normal_status_means_no_weight_change
    (user_data : user_data) (metrics : gmap string value) :
  calculate_all_metrics user_data = Ok metrics ->
  metrics !! "bmi_status" = Some (VStr "normal") ->
  metrics !! "recommended_weight_change" = Some (VNum (num 0)).
Proof.
  intros (w & h & a & g & al & goal & t & H)%calculate_all_metrics_as_metrics_of Hn.
  unfold metrics_of in H.
  apply bind_Ok_inv in H as (bmi & _ & H).
  apply bind_Ok_inv in H as (rw & Hrw & H).
  apply bind_Ok_inv in H as (w' & _ & H).
  apply bind_Ok_inv in H as (bmr & _ & H).
  apply bind_Ok_inv in H as (tdee & _ & H).
  apply bind_Ok_inv in H as (cal & _ & H).
  injection H as <-.
  assert (get_bmi_status bmi = "normal") as Hst.
  { revert Hn. rewrite lookup_insert_ne by done. rewrite lookup_insert_eq. by intros [= ->]. }
  rewrite Hst in Hrw. unfold calculate_recommended_weight in Hrw.
  apply bind_Ok_inv in Hrw as (h' & _ & Hrw). simpl in Hrw. injection Hrw as <-.
  rewrite !(lookup_insert_ne _ "bmi") by done.
  rewrite !(lookup_insert_ne _ "bmi_status") by done.
  rewrite lookup_insert_eq. destruct (decide (num 0 <> num 0)); [done|].
  by rewrite py_round2_zero.
Qed.

Lemma normal_status_means_no_weight_change_witness :
  (match calculate_all_metrics
           (Dict (<["weight_kg" := VNum (num 70)]> sample_profile)) with
   | Ok metrics => metrics
   | Raise _ => ∅
   end) !! "recommended_weight_change" = Some (VNum (num 0)).
Proof.
  apply (normal_status_means_no_weight_change
           (Dict (<["weight_kg" := VNum (num 70)]> sample_profile))).
  - vm_compute; reflexivity.
  - by_computation.
Defined.

(** ** Registration *)

Ltac lookup_by_evaluation := vm_compute; reflexivity.

(** X6.  A document assembled by [prepare_user_for_db] is consistent: the
    calculated fields it stores are the metrics of the inputs it stores, so
    recomputing from the stored document gives the stored figures.  It holds
    the hash of the password under the salt, is active and has no [_id]
    yet. *)
Theorem registered_document_is_consistent
    (bcrypt_hashpw : string -> string -> string) (salt : string)
    (user : Models.UserRegisterModel) (doc : gmap string value) :
  UserService.prepare_user_for_db bcrypt_hashpw salt user = Ok doc ->
  consistent doc /\
  calculate_all_metrics (Dict doc) = calculate_all_metrics (Model user) /\
  doc !! "password_hash" = Some (VStr (bcrypt_hashpw user.(Models.password) salt)) /\
  doc !! "is_active" = Some (VBool true) /\
  doc !! "_id" = None.
Proof.
  unfold UserService.prepare_user_for_db. intros H.
  apply bind_Ok_inv in H as (metrics & Hm & H).
  pose proof Hm as Hshape.
  apply calculate_all_metrics_as_metrics_of in Hshape as (?&?&?&?&?&?&?&Hshape).
  apply metrics_of_shape in Hshape as (v1 & v2 & v3 & v4 & v5 & v6 & ->).
  assert (forall k v, ({[ "bmi" := v1; "bmi_status" := v2; "recommended_weight_change" := v3;
             "bmr" := v4; "tdee" := v5; "recommended_daily_calories" := v6 ]}
             : gmap string value) !! k = Some v ->
          getitem {[ "bmi" := v1; "bmi_status" := v2; "recommended_weight_change" := v3;
             "bmr" := v4; "tdee" := v5; "recommended_daily_calories" := v6 ]} k = Ok v) as Hget.
  { intros k v E. unfold getitem. by rewrite E. }
  rewrite (Hget "bmi" v1), (Hget "bmi_status" v2), (Hget "recommended_weight_change" v3),
    (Hget "recommended_daily_calories" v6), (Hget "bmr" v4), (Hget "tdee" v5) in H
    by lookup_by_evaluation.
  rewrite !bind_Ok in H. apply Ok_inj in H.
  assert (calculate_all_metrics (Dict doc) = calculate_all_metrics (Model user)) as Hsame.
  { rewrite calculate_all_metrics_Model. unfold calculate_all_metrics, getitem, get.
    assert (doc !! "weight_kg" = Some (VNum user.(Models.weight_kg))) as ->
      by (rewrite <- H; lookup_by_evaluation).
    assert (doc !! "height_cm" = Some (VNum user.(Models.height_cm))) as ->
      by (rewrite <- H; lookup_by_evaluation).
    assert (doc !! "age" = Some (opt_int user.(Models.age))) as ->
      by (rewrite <- H; lookup_by_evaluation).
    assert (doc !! "gender" = Some (VStr user.(Models.gender))) as ->
      by (rewrite <- H; lookup_by_evaluation).
    assert (doc !! "activity_level" = Some (VStr user.(Models.activity_level))) as ->
      by (rewrite <- H; lookup_by_evaluation).
    assert (doc !! "goal" = Some (VStr user.(Models.goal))) as ->
      by (rewrite <- H; lookup_by_evaluation).
    assert (doc !! "target_weight_kg" = Some (opt_num user.(Models.target_weight_kg))) as ->
      by (rewrite <- H; lookup_by_evaluation).
    reflexivity. }
  split_and!.
  - exists ({[ "bmi" := v1; "bmi_status" := v2; "recommended_weight_change" := v3;
               "bmr" := v4; "tdee" := v5; "recommended_daily_calories" := v6 ]}).
    split; [by rewrite Hsame|].
    apply calculated_key_cases; rewrite <- H; lookup_by_evaluation.
  - exact Hsame.
  - rewrite <- H. lookup_by_evaluation.
  - rewrite <- H. lookup_by_evaluation.
  - rewrite <- H. lookup_by_evaluation.
Qed.

Lemma registered_document_is_consistent_witness :
  let doc := match UserService.prepare_user_for_db (fun password salt => salt ++ password)
                     "$2b$12$aaaaaaaaaaaaaaaaaaaaaa" sample_registration with
             | Ok doc => doc
             | Raise _ => ∅
             end in
  consistent doc /\
  calculate_all_metrics (Dict doc) = calculate_all_metrics (Model sample_registration) /\
  doc !! "password_hash"
    = Some (VStr ("$2b$12$aaaaaaaaaaaaaaaaaaaaaa" ++ sample_registration.(Models.password))) /\
  doc !! "is_active" = Some (VBool true) /\
  doc !! "_id" = None.
Proof.
  apply (registered_document_is_consistent (fun password salt => salt ++ password)
           "$2b$12$aaaaaaaaaaaaaaaaaaaaaa" sample_registration).
  vm_compute; reflexivity.
Defined.

(** X7.  [get_user_response] never exposes [password_hash] or [_id] and
    returns every other field of the document unchanged; applying it twice
    changes nothing more. *)
Theorem user_response_hides_hash_and_id (user_doc : gmap string value) :
  get_user_response user_doc !! "password_hash" = None /\
  get_user_response user_doc !! "_id" = None /\
  (forall key, key <> "password_hash" -> key <> "_id" ->
     get_user_response user_doc !! key = user_doc !! key) /\
  get_user_response (get_user_response user_doc) = get_user_response user_doc.
Proof.
  unfold get_user_response. split_and!.
  - by rewrite lookup_delete_ne, lookup_delete_eq.
  - by rewrite lookup_delete_eq.
  - intros key H1 H2. by rewrite !lookup_delete_ne.
  - apply map_eq. intros key. rewrite !lookup_delete.
    repeat case_decide; done.
Qed.

(** ** Profile update *)

(** X8.  The loop that merges an update into the copy of the stored
    document never adds a key: the merged dict has exactly the stored keys,
    each with the update's value when the update names it and the stored
    value otherwise.  A key that only the update has plays no part in the
    recomputation. *)
Theorem merge_updates_keeps_the_stored_keys
    (updates current_user : gmap string value) (key : string) :
  (is_Some (merge_updates updates current_user !! key) <-> is_Some (current_user !! key)) /\
  (forall old, current_user !! key = Some old ->
     merge_updates updates current_user !! key = Some (default old (updates !! key))) /\
  (current_user !! key = None -> merge_updates updates current_user !! key = None).
Proof.
  rewrite merge_updates_lookup. destruct (current_user !! key) as [old|].
  - split_and!; [split; eauto | by intros ? [= <-] | done].
  - split_and!; [split; intros []; done | done | done].
Qed.

Lemma update_user_profile_without_ObjectId now updates current_user db :
  (forall oid, current_user !! "_id" <> Some (VObjectId oid)) ->
  update_user_profile now updates current_user db = Raise (HTTPException 500).
Proof.
  intros Hid. unfold update_user_profile, getitem.
  destruct (current_user !! "_id") as [_id|]; [|reflexivity].
  unfold or_raise. rewrite bind_Ok.
  destruct (recalculate_metrics updates).
  - destruct (calculate_all_metrics (Dict (merge_updates updates current_user)))
      as [metrics|e] eqn:Hm.
    + rewrite !bind_Ok. destruct _id; try reflexivity. by destruct (Hid oid).
    + rewrite !bind_Raise. by apply (internal_server_error_of_metrics _ _ Hm).
  - rewrite bind_Ok. destruct _id; try reflexivity. by destruct (Hid oid).
Qed.

Lemma ObjectId_or_not (o : option value) :
  (exists oid, o = Some (VObjectId oid)) \/ (forall oid, o <> Some (VObjectId oid)).
Proof. destruct o as [[]|]; eauto; right; congruence. Qed.

(** What the route hands to [$set], when it gets that far. *)
Lemma update_user_profile_Ok now updates current_user db db' :
  update_user_profile now updates current_user db = Ok db' ->
  exists oid fields,
    current_user !! "_id" = Some (VObjectId oid) /\
    db' = update_one_set db oid (<["updated_at" := VDatetime now]> fields) /\
    ((recalculate_metrics updates = false /\ fields = updates) \/
     (recalculate_metrics updates = true /\
      exists metrics,
        calculate_all_metrics (Dict (merge_updates updates current_user)) = Ok metrics /\
        fields = metrics ∪ updates)).
Proof.
  intros H. destruct (ObjectId_or_not (current_user !! "_id")) as [[oid Hid] | Hid].
  - destruct (recalculate_metrics updates) eqn:Hr.
    + rewrite (update_with_recalculation _ _ _ _ oid) in H by done.
      destruct (calculate_all_metrics (Dict (merge_updates updates current_user)))
        as [metrics|e] eqn:Hm.
      * apply Ok_inj in H as <-. eauto 10.
      * by rewrite (internal_server_error_of_metrics _ _ Hm) in H.
    + rewrite (update_without_recalculation _ _ _ _ oid) in H by done.
      apply Ok_inj in H as <-. eauto 10.
  - by rewrite update_user_profile_without_ObjectId in H.
Qed.

Lemma update_user_profile_Raise now updates current_user db e :
  update_user_profile now updates current_user db = Raise e -> e = HTTPException 500.
Proof.
  intros H. destruct (ObjectId_or_not (current_user !! "_id")) as [[oid Hid] | Hid].
  - destruct (recalculate_metrics updates) eqn:Hr.
    + rewrite (update_with_recalculation _ _ _ _ oid) in H by done.
      destruct (calculate_all_metrics (Dict (merge_updates updates current_user)))
        as [metrics|e'] eqn:Hm; [discriminate|].
      rewrite (internal_server_error_of_metrics _ _ Hm) in H. by injection H.
    + by rewrite (update_without_recalculation _ _ _ _ oid) in H.
  - rewrite update_user_profile_without_ObjectId in H by done. by injection H.
Qed.

(** A dict with a field that cannot be serialized cannot be serialized. *)
Lemma json_serializable_field (m : gmap string value) (key : string) (v : value) :
  m !! key = Some v -> json_serializable v = false -> json_serializable (VDict m) = false.
Proof.
  intros Hk Hv. cbn [json_serializable].
  rewrite (map_fold_delete_L _ _ key v m); [by rewrite Hv| |done].
  intros j1 j2 z1 z2 y _ _ _. by rewrite !andb_assoc, (andb_comm (json_serializable z1)).
Qed.

Lemma updated_profile_response_fails (db : users) (oid : string) (now : Z)
    (fields : gmap string value) :
  updated_profile_response oid (update_one_set db oid (<["updated_at" := VDatetime now]> fields))
  = Raise (HTTPException 500).
Proof.
  unfold updated_profile_response, update_one_set. rewrite lookup_alter_eq.
  destruct (db !! oid) as [doc|]; [|reflexivity].
  cbn [fmap option_fmap option_map or_raise]. rewrite bind_Ok. unfold JSONResponse.
  rewrite (json_serializable_field _ "user"
             (VDict (get_user_response (<["updated_at" := VDatetime now]> fields ∪ doc))));
    [reflexivity | by rewrite lookup_insert_ne, lookup_singleton_eq |].
  apply (json_serializable_field _ "updated_at" (VDatetime now)); [|reflexivity].
  unfold get_user_response. rewrite !lookup_delete_ne by done.
  apply lookup_union_Some_l. by rewrite lookup_insert_eq.
Qed.

(** X9.  The caller of [update_user_profile] receives status 500 on every
    request.  Either the route fails before the write and the collection is
    left as it was, or the write is done and the response cannot be built:
    the document read back holds the [datetime] just written under
    [updated_at], which [json.dumps] refuses, or no document is read back. *)
Theorem update_always_answers_500
    (now : Z) (updates current_user : gmap string value) (db : users) :
  let outcome := update_user_profile_route now updates current_user db in
  outcome.2 = Raise (HTTPException 500) /\
  (update_user_profile now updates current_user db = Ok outcome.1 \/
   update_user_profile now updates current_user db = Raise (HTTPException 500) /\
   outcome.1 = db).
Proof.
  intros outcome. subst outcome. unfold update_user_profile_route.
  destruct (update_user_profile now updates current_user db) as [db'|e] eqn:Hu.
  - apply update_user_profile_Ok in Hu as (oid & fields & Hid & -> & _).
    rewrite Hid. cbn [fst snd]. split; [apply updated_profile_response_fails | by left].
  - apply update_user_profile_Raise in Hu as ->.
    destruct (current_user !! "_id") as [[]|]; cbn [fst snd]; split; try reflexivity;
      by right.
Qed.

(** X10.  The update map is written as it comes: every key of it, whether
    or not the stored document has that key, reaches the stored document
    with the supplied value, except [updated_at] and, when metrics are
    recomputed, the six calculated keys. *)
Theorem update_writes_every_supplied_field
    (now : Z) (updates current_user : gmap string value) (db db' : users)
    (oid key : string) (v : value) :
  update_user_profile now updates current_user db = Ok db' ->
  current_user !! "_id" = Some (VObjectId oid) ->
  db !! oid = Some current_user ->
  updates !! key = Some v ->
  key <> "updated_at" ->
  recalculate_metrics updates = false \/ key ∉ calculated_keys ->
  exists persisted, db' !! oid = Some persisted /\ persisted !! key = Some v.
Proof.
  intros H Hid Hdb Hv Hne Hk.
  apply update_user_profile_Ok in H as (oid' & fields & Hid' & -> & Hf).
  rewrite Hid in Hid'. injection Hid' as <-.
  rewrite (update_one_set_found _ _ _ current_user) by done.
  eexists. split; [apply lookup_insert_eq|].
  apply lookup_union_Some_l. rewrite lookup_insert_ne by done.
  destruct Hf as [[Hr ->] | [Hr (metrics & Hm & ->)]]; [done|].
  destruct Hk as [Hk|Hk]; [congruence|].
  rewrite lookup_union_r; [done|].
  by apply (metrics_lookup_calculated metrics _ key Hm).
Qed.

Lemma update_writes_every_supplied_field_witness :
  exists persisted,
    update_one_set sample_db sample_oid
      (<["updated_at" := VDatetime 2000]> {[ "is_admin" := VBool true ]}) !! sample_oid
    = Some persisted /\
    persisted !! "is_admin" = Some (VBool true).
Proof.
  apply (update_writes_every_supplied_field 2000 {[ "is_admin" := VBool true ]}
           sample_profile sample_db _ sample_oid "is_admin" (VBool true)).
  - by apply update_without_recalculation.
  - reflexivity.
  - reflexivity.
  - reflexivity.
  - done.
  - left. reflexivity.
Defined.

(** X11.  When the update names a trigger key, calculated fields supplied
    in the update are discarded: what is stored under the six calculated
    keys is what [calculate_all_metrics] returned for the merged data. *)
Theorem recomputation_overrides_supplied_metrics
    (now : Z) (updates current_user : gmap string value) (db db' : users) (oid : string) :
  update_user_profile now updates current_user db = Ok db' ->
  current_user !! "_id" = Some (VObjectId oid) ->
  db !! oid = Some current_user ->
  recalculate_metrics updates = true ->
  exists persisted metrics,
    db' !! oid = Some persisted /\
    calculate_all_metrics (Dict (merge_updates updates current_user)) = Ok metrics /\
    forall key, key ∈ calculated_keys -> persisted !! key = metrics !! key.
Proof.
  intros H Hid Hdb Hr.
  apply update_user_profile_Ok in H as (oid' & fields & Hid' & -> & Hf).
  rewrite Hid in Hid'. injection Hid' as <-.
  destruct Hf as [[Hr' _] | [_ (metrics & Hm & ->)]]; [congruence|].
  rewrite (update_one_set_found _ _ _ current_user) by done.
  eexists. exists metrics. split_and!; [apply lookup_insert_eq | done |].
  intros key Hk. destruct (metrics_lookup_calculated metrics _ key Hm) as [Hin _].
  destruct (Hin Hk) as [v Hv]. rewrite Hv.
  apply lookup_union_Some_l. rewrite lookup_insert_ne
    by (intros <-; by apply updated_at_not_calculated in Hk).
  by apply lookup_union_Some_l.
Qed.

Lemma recomputation_overrides_supplied_metrics_witness :
  let updates : gmap string value := {[ "weight_kg" := VNum (num 80); "bmi" := VNum (num 99) ]} in
  let recomputed :=
    match calculate_all_metrics (Dict (merge_updates updates sample_profile)) with
    | Ok metrics => metrics
    | Raise _ => ∅
    end in
  exists persisted metrics,
    update_one_set sample_db sample_oid
      (<["updated_at" := VDatetime 2000]> (recomputed ∪ updates)) !! sample_oid
    = Some persisted /\
    calculate_all_metrics (Dict (merge_updates updates sample_profile)) = Ok metrics /\
    forall key, key ∈ calculated_keys -> persisted !! key = metrics !! key.
Proof.
  intros updates recomputed.
  assert (calculate_all_metrics (Dict (merge_updates updates sample_profile)) = Ok recomputed)
    as Hm by (vm_compute; reflexivity).
  apply (recomputation_overrides_supplied_metrics 2000 updates sample_profile sample_db _
           sample_oid).
  - rewrite (update_with_recalculation _ _ _ _ sample_oid) by reflexivity.
    by rewrite Hm.
  - reflexivity.
  - reflexivity.
  - reflexivity.
Defined.

(** X24.  The time stamp of an update cannot be chosen by the caller: a
    successful update stores the current time under [updated_at] whether or
    not the update map names that key, and leaves every other document of
    the collection as it was. *)
Theorem update_stamps_the_current_time
    (now : Z) (updates current_user : gmap string value) (db db' : users) (oid : string) :
  update_user_profile now updates current_user db = Ok db' ->
  current_user !! "_id" = Some (VObjectId oid) ->
  db !! oid = Some current_user ->
  (exists persisted,
     db' !! oid = Some persisted /\ persisted !! "updated_at" = Some (VDatetime now)) /\
  (forall other, other <> oid -> db' !! other = db !! other).
Proof.
  intros H Hid Hdb.
  apply update_user_profile_Ok in H as (oid' & fields & Hid' & -> & _).
  rewrite Hid in Hid'. injection Hid' as <-.
  rewrite (update_one_set_found _ _ _ current_user) by done. split.
  - eexists. split; [apply lookup_insert_eq|].
    apply lookup_union_Some_l. apply lookup_insert_eq.
  - intros other Hne. by rewrite lookup_insert_ne.
Qed.

Lemma update_stamps_the_current_time_witness :
  let updates : gmap string value := {[ "updated_at" := VDatetime 1 ]} in
  let db' := update_one_set sample_db sample_oid (<["updated_at" := VDatetime 2000]> updates) in
  (exists persisted,
     db' !! sample_oid = Some persisted /\
     persisted !! "updated_at" = Some (VDatetime 2000)) /\
  (forall other, other <> sample_oid -> db' !! other = sample_db !! other).
Proof.
  apply (update_stamps_the_current_time 2000 {[ "updated_at" := VDatetime 1 ]}
           sample_profile sample_db _ sample_oid).
  - by apply update_without_recalculation.
  - reflexivity.
  - reflexivity.
Defined.

(** ** The age validator *)

(** X12.  Without a submitted age, [calculate_age] counts the birthdays
    that have passed: the age is the one number of years whose birthday is
    on or before today while the next one is still ahead.  A submitted age
    is returned as it is, whatever the date of birth, and without a date of
    birth there is no age. *)
Theorem age_counts_the_birthdays_passed (today dob : date) :
  (forall age, calculate_age today None (Some dob) = Some age <->
     date_le (birthday dob age) today /\ date_lt today (birthday dob (age + 1))) /\
  (forall v date_of_birth, calculate_age today (Some v) date_of_birth = Some v) /\
  calculate_age today None None = None.
Proof.
  split_and!; [|reflexivity|reflexivity].
  intros age. unfold calculate_age, month_day_before, date_le, date_lt, birthday.
  destruct today as [ty tm td], dob as [dy dm dd]. simpl.
  destruct (Z.ltb_spec tm dm), (Z.eqb_spec tm dm), (Z.ltb_spec td dd); simpl;
    (split; [intros [= <-]; lia | intros [H1 H2]; f_equal; lia]).
Qed.

(** ** Meal-plan assembly *)

Lemma weekday_of_week_start (today : Z) : weekday (today - weekday today) = 0%Z.
Proof.
  unfold weekday.
  replace (today - (today + 6) mod 7 + 6)%Z with (((today + 6) / 7) * 7)%Z
    by (pose proof (Z.div_mod (today + 6) 7 ltac:(lia)); lia).
  apply Z_mod_mult.
Qed.

Lemma weekday_range (today : Z) : (0 <= weekday today < 7)%Z.
Proof. unfold weekday. apply Z.mod_pos_bound. lia. Qed.

Lemma mapM_Raise {A B} (f : A -> result B) (l : list A) (x : A) (e : exn) :
  x ∈ l -> f x = Raise e -> exists e', mapM f l = Raise e'.
Proof.
  intros Hx Hf. induction l as [|y l IH]; [by apply elem_of_nil in Hx|].
  apply elem_of_cons in Hx as [<-|Hx]; simpl.
  - rewrite Hf. eauto.
  - destruct (f y); [|eauto]. rewrite bind_Ok.
    destruct (IH Hx) as [e' ->]. eauto.
Qed.

Section Assembly.

Variable MealItem_init : gmap string value -> result MealItem.
Variable validate_int : value -> result Z.
Variable validate_float : value -> result Qc.
Variable ObjectId_is_valid : string -> bool.
Variable validator_gets_info : bool.

Abbreviation create := (create_weekly_meal_plan_model MealItem_init validate_int validate_float
                      ObjectId_is_valid validator_gets_info).
Abbreviation day_plan := (day_meal_plan MealItem_init validate_int validate_float).

Lemma create_weekly_meal_plan_model_Ok today fresh_id created updated user_id
    meal_plan_data plan :
  create today fresh_id created updated user_id meal_plan_data = Ok plan ->
  exists data mon tue wed thu fri sat sun,
    meal_plan_data = VDict data /\
    mapM (day_plan data) day_names = Ok [mon; tue; wed; thu; fri; sat; sun] /\
    validator_gets_info = false /\ ObjectId_is_valid user_id = true /\
    plan = {| id := fresh_id; user_id := lower user_id;
              week_start_date := (today - weekday today)%Z;
              monday := mon; tuesday := tue; wednesday := wed; thursday := thu;
              friday := fri; saturday := sat; sunday := sun;
              created_at := created; updated_at := updated |}.
Proof.
  unfold create_weekly_meal_plan_model, as_dict, PyObjectId_field, PyObjectId_validate.
  intros H.
  destruct meal_plan_data as [| | | | |data| |]; try discriminate.
  rewrite bind_Ok in H.
  destruct (mapM (day_plan data) day_names) as [days|] eqn:Hdays; [|discriminate].
  rewrite bind_Ok in H.
  destruct days as [|mon [|tue [|wed [|thu [|fri [|sat [|sun [|? ?]]]]]]]];
    try discriminate.
  destruct validator_gets_info; [discriminate|].
  destruct (ObjectId_is_valid user_id) eqn:Hvalid; [|discriminate].
  rewrite bind_Ok in H. unfold failed_to_create in H. apply Ok_inj in H as <-.
  exists data, mon, tue, wed, thu, fri, sat, sun. done.
Qed.

(** X13.  The week of an assembled plan starts on the Monday on or before
    the current date, whatever the payload holds; the plan carries the owner
    in the lowercase form of an [ObjectId], the identifier drawn for it and
    the two clock readings, each in its own field. *)
Theorem week_starts_on_the_last_monday
    (today : Z) (fresh_id : string) (created updated : Z) (user_id : string)
    (meal_plan_data : value) (plan : WeeklyMealPlan) :
  create today fresh_id created updated user_id meal_plan_data = Ok plan ->
  weekday plan.(week_start_date) = 0%Z /\
  (plan.(week_start_date) <= today < plan.(week_start_date) + 7)%Z /\
  plan.(MealModels.user_id) = lower user_id /\ plan.(id) = fresh_id /\
  plan.(created_at) = created /\ plan.(updated_at) = updated.
Proof.
  intros (data & mon & tue & wed & thu & fri & sat & sun & _ & _ & _ & _ & ->)
    %create_weekly_meal_plan_model_Ok.
  simpl. pose proof (weekday_range today).
  split_and!; try reflexivity; [apply weekday_of_week_start | lia | lia].
Qed.

(** X14.  Every failure of the assembly surfaces as the one exception
    "Failed to create meal plan model".  The assembly fails when the payload
    is not a dict, when a day key holds something that is not a dict (a
    missing key is fine, a malformed one is not), and when the owner's
    identifier is not valid. *)
Theorem assembly_failures
    (today : Z) (fresh_id : string) (created updated : Z) (user_id : string)
    (meal_plan_data : value) :
  let failure := Raise (Exception "Failed to create meal plan model") in
  (forall e, create today fresh_id created updated user_id meal_plan_data = Raise e ->
     e = Exception "Failed to create meal plan model") /\
  ((forall data, meal_plan_data <> VDict data) ->
     create today fresh_id created updated user_id meal_plan_data = failure) /\
  (forall data day_name v,
     meal_plan_data = VDict data -> day_name ∈ day_names ->
     data !! day_name = Some v -> (forall day_data, v <> VDict day_data) ->
     create today fresh_id created updated user_id meal_plan_data = failure) /\
  (ObjectId_is_valid user_id = false ->
     create today fresh_id created updated user_id meal_plan_data = failure).
Proof.
  intros failure. subst failure. split_and!.
  - intros e. unfold create_weekly_meal_plan_model, failed_to_create.
    destruct (_ ≫= _); [discriminate | by intros [= <-]].
  - intros Hnd. unfold create_weekly_meal_plan_model, as_dict.
    destruct meal_plan_data; try reflexivity. by destruct (Hnd m).
  - intros data day_name v -> Hd Hv Hnd.
    assert (day_plan data day_name = Raise AttributeError) as Hday.
    { unfold day_meal_plan, get_default, as_dict. rewrite Hv. simpl.
      destruct v; try reflexivity. by destruct (Hnd m). }
    destruct (mapM_Raise _ _ _ _ Hd Hday) as [e' He'].
    unfold create_weekly_meal_plan_model, as_dict. by rewrite bind_Ok, He'.
  - intros Hinv.
    unfold create_weekly_meal_plan_model, PyObjectId_field, PyObjectId_validate.
    destruct (as_dict meal_plan_data) as [data|]; [|reflexivity]. rewrite bind_Ok.
    destruct (mapM (day_plan data) day_names) as [days|]; [|reflexivity].
    rewrite bind_Ok. do 8 (destruct days as [|? days]; try reflexivity).
    rewrite Hinv. by destruct validator_gets_info.
Qed.

(** X15.  Within a day that is present, a meal slot that is missing is the
    empty sequence and a missing total is validated from the default 0;
    the other keys of the day play no part. *)
Theorem missing_slots_and_totals_default
    (meal_plan_data day_data : gmap string value) (day_name : string) (plan : DayMealPlan) :
  meal_plan_data !! day_name = Some (VDict day_data) ->
  day_plan meal_plan_data day_name = Ok plan ->
  (day_data !! "breakfast" = None -> plan.(breakfast) = []) /\
  (day_data !! "lunch" = None -> plan.(lunch) = []) /\
  (day_data !! "dinner" = None -> plan.(dinner) = []) /\
  (day_data !! "snacks" = None -> plan.(snacks) = []) /\
  (day_data !! "total_calories" = None ->
     validate_int (VNum (num 0)) = Ok plan.(total_calories)) /\
  (day_data !! "total_protein" = None ->
     validate_float (VNum (num 0)) = Ok plan.(total_protein)) /\
  (day_data !! "total_carbs" = None ->
     validate_float (VNum (num 0)) = Ok plan.(total_carbs)) /\
  (day_data !! "total_fat" = None ->
     validate_float (VNum (num 0)) = Ok plan.(total_fat)).
Proof.
  intros Hday H. unfold day_meal_plan, get_default in H. rewrite Hday in H.
  simpl in H.
  apply bind_Ok_inv in H as (b & Hb & H). apply bind_Ok_inv in H as (l & Hl & H).
  apply bind_Ok_inv in H as (d & Hd & H). apply bind_Ok_inv in H as (s & Hs & H).
  apply bind_Ok_inv in H as (tc & Htc & H). apply bind_Ok_inv in H as (tp & Htp & H).
  apply bind_Ok_inv in H as (tb & Htb & H). apply bind_Ok_inv in H as (tf & Htf & H).
  apply Ok_inj in H as <-. simpl.
  split_and!; intros E; rewrite E in *; simpl in *; try congruence.
  all: by match goal with H : mret _ = Ok _ |- _ => injection H end.
Qed.

(** X23.  The default of a meal slot applies to a missing key only: a slot
    that is present with a value that cannot be iterated ([null], a number,
    a boolean) makes the whole assembly fail. *)
Theorem present_slot_that_is_no_sequence_fails
    (today : Z) (fresh_id : string) (created updated : Z) (user_id : string)
    (meal_plan_data day_data : gmap string value) (day_name slot : string) (v : value) :
  day_name ∈ day_names ->
  meal_plan_data !! day_name = Some (VDict day_data) ->
  slot ∈ ["breakfast"; "lunch"; "dinner"; "snacks"] ->
  day_data !! slot = Some v ->
  (forall l, v <> VList l) -> (forall m, v <> VDict m) -> (forall s, v <> VStr s) ->
  create today fresh_id created updated user_id (VDict meal_plan_data)
  = Raise (Exception "Failed to create meal plan model").
Proof.
  intros Hd Hday Hslot Hv Hl Hm Hs.
  assert (meal_items MealItem_init v = Raise TypeError) as Hitems.
  { destruct v; try reflexivity; [by destruct (Hs s) | by destruct (Hl l) | by destruct (Hm m)]. }
  assert (exists e, day_plan meal_plan_data day_name = Raise e) as [e He].
  { unfold day_meal_plan, get_default. rewrite Hday.
    change (as_dict (default (VDict ∅) (Some (VDict day_data)))) with (Ok day_data).
    rewrite bind_Ok.
    repeat (apply elem_of_cons in Hslot as [->|Hslot];
            [rewrite Hv; change (default (VList []) (Some v)) with v; rewrite Hitems;
             repeat match goal with
                    | |- context [meal_items ?f ?x ≫= _] =>
                        destruct (meal_items f x); [rewrite bind_Ok | eauto]
                    end; eauto |]).
    by apply elem_of_nil in Hslot. }
  destruct (mapM_Raise _ _ _ _ Hd He) as [e' He'].
  unfold create_weekly_meal_plan_model, as_dict. by rewrite bind_Ok, He'.
Qed.

End Assembly.

Lemma week_starts_on_the_last_monday_witness :
  exists plan,
    create_weekly_meal_plan_model sample_MealItem_init sample_validate_int
      sample_validate_float sample_ObjectId_is_valid false
      739000 "65f1c0ffee65f1c0ffee0002" 5000 5001 "65F1C0FFEE65F1C0FFEE0001"
      (VDict sample_payload) = Ok plan /\
    weekday plan.(week_start_date) = 0%Z /\
    (plan.(week_start_date) <= 739000 < plan.(week_start_date) + 7)%Z /\
    plan.(MealModels.user_id) = sample_oid /\ plan.(id) = "65f1c0ffee65f1c0ffee0002" /\
    plan.(created_at) = 5000%Z /\ plan.(updated_at) = 5001%Z.
Proof.
  eexists. split; [vm_compute; reflexivity|].
  eapply (week_starts_on_the_last_monday sample_MealItem_init sample_validate_int
            sample_validate_float sample_ObjectId_is_valid false
            739000 "65f1c0ffee65f1c0ffee0002" 5000 5001 "65F1C0FFEE65F1C0FFEE0001"
            (VDict sample_payload)).
  vm_compute; reflexivity.
Defined.

Lemma missing_slots_and_totals_default_witness :
  exists plan,
    day_meal_plan sample_MealItem_init sample_validate_int sample_validate_float
      sample_payload "monday" = Ok plan /\
    plan.(lunch) = [] /\ plan.(snacks) = [] /\
    sample_validate_float (VNum (num 0)) = Ok plan.(total_fat).
Proof.
  eexists. split; [vm_compute; reflexivity|].
  edestruct (missing_slots_and_totals_default sample_MealItem_init sample_validate_int
               sample_validate_float sample_payload
               (match sample_payload !! "monday" with Some (VDict d) => d | _ => ∅ end)
               "monday") as (_ & Hl & _ & Hs & _ & _ & _ & Hf);
    [vm_compute; reflexivity | vm_compute; reflexivity |].
  split_and!; [apply Hl | apply Hs | apply Hf]; vm_compute; reflexivity.
Defined.

Lemma present_slot_that_is_no_sequence_fails_witness :
  create_weekly_meal_plan_model sample_MealItem_init sample_validate_int
    sample_validate_float sample_ObjectId_is_valid false
    739000 "65f1c0ffee65f1c0ffee0002" 5000 5001 sample_oid
    (VDict {[ "friday" := VDict {[ "lunch" := VNone ]} ]})
  = Raise (Exception "Failed to create meal plan model").
Proof.
  apply (present_slot_that_is_no_sequence_fails _ _ _ _ _ _ _ _ _ _
           {[ "friday" := VDict {[ "lunch" := VNone ]} ]} {[ "lunch" := VNone ]}
           "friday" "lunch" VNone);
    try done; repeat constructor.
Defined.

(** ** Extraction of the JSON text from the model's answer *)

Lemma append_cons (c : ascii) (s t : string) : String c s ++ t = String c (s ++ t).
Proof. reflexivity. Qed.

Lemma append_nil (t : string) : "" ++ t = t.
Proof. reflexivity. Qed.

Lemma append_assoc (s t u : string) : (s ++ t) ++ u = s ++ t ++ u.
Proof. induction s as [|c s IH]; [done|]. by rewrite !append_cons, IH. Qed.

Lemma length_append (s t : string) :
  String.length (s ++ t) = (String.length s + String.length t)%nat.
Proof. induction s as [|c s IH]; [done|]. rewrite append_cons. simpl. by rewrite IH. Qed.

Lemma prefix_cons (a b : ascii) (s1 s2 : string) :
  String.prefix (String a s1) (String b s2)
  = if ascii_dec a b then String.prefix s1 s2 else false.
Proof. reflexivity. Qed.

Lemma prefix_nil_l (s : string) : String.prefix "" s = true.
Proof. by destruct s. Qed.

Lemma prefix_append (s t : string) : String.prefix s (s ++ t) = true.
Proof.
  induction s as [|c s IH]; [apply prefix_nil_l|].
  rewrite append_cons, prefix_cons. by destruct (ascii_dec c c).
Qed.

Lemma has_char_append (c : ascii) (s t : string) :
  has_char c (s ++ t) = (has_char c s || has_char c t)%bool.
Proof.
  induction s as [|b s IH]; [done|]. rewrite append_cons. simpl.
  by destruct (ascii_dec c b).
Qed.

(** A pattern is not found before its first character occurs. *)
Lemma index_skips (c : ascii) (sub pre rest : string) :
  has_char c pre = false ->
  String.index 0 (String c sub) (pre ++ rest)
  = (fun n => (String.length pre + n)%nat) <$> String.index 0 (String c sub) rest.
Proof.
  intros H. induction pre as [|b pre IH].
  - rewrite append_nil. by destruct (String.index 0 (String c sub) rest).
  - simpl in H. destruct (ascii_dec c b) as [|Hne]; [discriminate|].
    rewrite append_cons. cbn [String.index]. rewrite prefix_cons.
    destruct (ascii_dec c b); [done|]. rewrite (IH H).
    by destruct (String.index 0 (String c sub) rest).
Qed.

Lemma index_absent (c : ascii) (sub s : string) :
  has_char c s = false -> String.index 0 (String c sub) s = None.
Proof.
  intros H. induction s as [|b s IH]; [done|].
  simpl in H. cbn [String.index]. rewrite prefix_cons.
  destruct (ascii_dec c b); [discriminate|]. by rewrite (IH H).
Qed.

Lemma index_here (c : ascii) (sub rest : string) :
  String.index 0 (String c sub) (String c sub ++ rest) = Some 0%nat.
Proof.
  rewrite append_cons. cbn [String.index]. rewrite prefix_cons.
  destruct (ascii_dec c c); [by rewrite prefix_append | done].
Qed.

(** Searching from the end of a prefix is searching in the rest. *)
Lemma index_from (sub p rest : string) :
  String.index (String.length p) sub (p ++ rest)
  = (fun n => (String.length p + n)%nat) <$> String.index 0 sub rest.
Proof.
  induction p as [|b p IH].
  - rewrite append_nil. cbn [String.length]. by destruct (String.index 0 sub rest).
  - rewrite append_cons. cbn [String.index String.length]. rewrite IH.
    by destruct (String.index 0 sub rest).
Qed.

Lemma substring_from (p s : string) (m : nat) :
  substring (String.length p) m (p ++ s) = substring 0 m s.
Proof. induction p as [|b p IH]; [done|]. rewrite append_cons. simpl. apply IH. Qed.

Lemma substring_prefix (a b : string) : substring 0 (String.length a) (a ++ b) = a.
Proof.
  induction a as [|c a IH]; [simpl; by destruct b|].
  rewrite append_cons. simpl. by rewrite IH.
Qed.

Lemma substring_drop_last (s : string) :
  substring 0 (String.length s - 1) s = drop_last s.
Proof.
  induction s as [|c s IH]; [done|].
  destruct s as [|c' s]; [done|].
  replace (String.length (String c (String c' s)) - 1)%nat
    with (S (String.length (String c' s) - 1)) by (simpl; lia).
  change (substring 0 (S ?m) (String c ?t)) with (String c (substring 0 m t)).
  by rewrite IH.
Qed.

Lemma substring_nothing (n : nat) (s : string) : substring n 0 s = "".
Proof. revert n. induction s as [|c s IH]; intros [|n]; simpl; auto. Qed.

Lemma rindex_absent (c : ascii) (s : string) :
  has_char c s = false -> rindex (String c "") s = None.
Proof.
  intros H. induction s as [|b s IH]; [done|].
  simpl in H. destruct (ascii_dec c b); [discriminate|].
  cbn [rindex]. rewrite (IH H), prefix_cons. by destruct (ascii_dec c b).
Qed.

Lemma rindex_last (c : ascii) (a post : string) :
  has_char c post = false ->
  rindex (String c "") (a ++ String c post) = Some (String.length a).
Proof.
  intros H. induction a as [|b a IH].
  - rewrite append_nil. cbn [rindex]. rewrite (rindex_absent _ _ H), prefix_cons.
    destruct (ascii_dec c c); [|done]. by rewrite prefix_nil_l.
  - rewrite append_cons. cbn [rindex]. by rewrite IH.
Qed.

Lemma slice_middle (p m r : string) :
  slice (p ++ m ++ r) (Z.of_nat (String.length p))
    (Z.of_nat (String.length p + String.length m)) = m.
Proof.
  unfold slice, clamp. rewrite !length_append.
  destruct (Z.ltb_spec (Z.of_nat (String.length p)) 0); [lia|].
  destruct (Z.ltb_spec (Z.of_nat (String.length p + String.length m)) 0); [lia|].
  rewrite !Z.min_l by lia.
  rewrite Nat2Z.id.
  replace (Z.to_nat (Z.of_nat (String.length p + String.length m) - Z.of_nat (String.length p)))
    with (String.length m) by lia.
  by rewrite substring_from, substring_prefix.
Qed.

Lemma slice_to_minus_one (p m : string) :
  slice (p ++ m) (Z.of_nat (String.length p)) (-1) = drop_last m.
Proof.
  unfold slice, clamp. rewrite !length_append.
  destruct (Z.ltb_spec (Z.of_nat (String.length p)) 0); [lia|].
  change (-1 <? 0)%Z with true. cbv iota.
  rewrite Z.min_l by lia. rewrite Nat2Z.id.
  destruct m as [|c m].
  - rewrite substring_from.
    replace (Z.to_nat _) with 0%nat by (simpl; lia). apply substring_nothing.
  - replace (Z.to_nat _) with (String.length (String c m) - 1)%nat by (simpl; lia).
    by rewrite substring_from, substring_drop_last.
Qed.

(** X16.  A block fenced as JSON is extracted and stripped: with no
    backquote before the fence or inside the block, and a block of ASCII
    characters, the text handed to the parser is the stripped interior,
    whatever precedes the fence and whatever follows the closing fence. *)
Theorem fenced_block_is_extracted (pre body post : string) :
  is_ascii body = true ->
  has_char "`" pre = false ->
  has_char "`" body = false ->
  extract_json_text (pre ++ "```json" ++ body ++ "```" ++ post) = Ok (strip body).
Proof.
  intros _ Hpre Hbody. unfold extract_json_text, contains, str_find.
  rewrite (index_skips _ _ _ _ Hpre), index_here. cbn [fmap option_fmap option_map].
  replace (Z.to_nat 0) with 0%nat by done.
  rewrite (index_skips _ _ _ _ Hpre), index_here. cbn [fmap option_fmap option_map].
  replace (Z.to_nat (Z.of_nat (String.length pre + 0) + 7))
    with (String.length (pre ++ "```json")) by (rewrite length_append; simpl; lia).
  rewrite <- (append_assoc pre "```json").
  rewrite index_from, (index_skips _ _ _ _ Hbody), index_here.
  cbn [fmap option_fmap option_map].
  replace (Z.of_nat (String.length pre + 0) + 7)%Z
    with (Z.of_nat (String.length (pre ++ "```json"))) by (rewrite length_append; simpl; lia).
  replace (String.length (pre ++ "```json") + (String.length body + 0))%nat
    with (String.length (pre ++ "```json") + String.length body)%nat by lia.
  by rewrite slice_middle.
Qed.

(** X17.  When the opening fence is never closed, the search for the
    closing fence gives -1 and the slice stops one character before the
    end: the last character of the block, here a block of ASCII characters,
    is lost before parsing. *)
Theorem unterminated_fence_loses_the_last_character (pre body : string) :
  is_ascii body = true ->
  has_char "`" pre = false ->
  has_char "`" body = false ->
  extract_json_text (pre ++ "```json" ++ body) = Ok (strip (drop_last body)).
Proof.
  intros _ Hpre Hbody. unfold extract_json_text, contains, str_find.
  rewrite (index_skips _ _ _ _ Hpre), index_here. cbn [fmap option_fmap option_map].
  replace (Z.to_nat 0) with 0%nat by done.
  rewrite (index_skips _ _ _ _ Hpre), index_here. cbn [fmap option_fmap option_map].
  replace (Z.to_nat (Z.of_nat (String.length pre + 0) + 7))
    with (String.length (pre ++ "```json")) by (rewrite length_append; simpl; lia).
  rewrite <- (append_assoc pre "```json").
  rewrite index_from, (index_absent _ _ _ Hbody). cbn [fmap option_fmap option_map].
  replace (Z.of_nat (String.length pre + 0) + 7)%Z
    with (Z.of_nat (String.length (pre ++ "```json"))) by (rewrite length_append; simpl; lia).
  by rewrite slice_to_minus_one.
Qed.

(** X18.  Without a fence, the text from the first opening brace to the
    last closing brace is taken, both included. *)
Theorem braces_are_extracted (pre mid post : string) :
  has_char "`" (pre ++ mid ++ post) = false ->
  has_char "{" pre = false ->
  has_char "}" post = false ->
  extract_json_text (pre ++ "{" ++ mid ++ "}" ++ post) = Ok ("{" ++ mid ++ "}").
Proof.
  intros Hq Hpre Hpost.
  rewrite !has_char_append in Hq.
  apply orb_false_elim in Hq as [Hq1 Hq]. apply orb_false_elim in Hq as [Hq2 Hq3].
  unfold extract_json_text, contains, str_find, str_rfind.
  rewrite (index_absent "`" "``json").
  2:{ rewrite !has_char_append, Hq1, Hq2, Hq3. reflexivity. }
  replace (Z.to_nat 0) with 0%nat by done.
  rewrite (index_skips "{" "" pre _ Hpre), (index_here "{" "").
  cbn [fmap option_fmap option_map].
  replace (pre ++ "{" ++ mid ++ "}" ++ post) with ((pre ++ "{" ++ mid) ++ String "}" post)
    by (by rewrite !append_assoc).
  rewrite (rindex_last "}" _ _ Hpost).
  replace ((pre ++ "{" ++ mid) ++ String "}" post) with (pre ++ ("{" ++ mid ++ "}") ++ post)
    by (by rewrite !append_assoc).
  replace (Z.of_nat (String.length pre + 0)) with (Z.of_nat (String.length pre)) by lia.
  replace (Z.of_nat (String.length (pre ++ "{" ++ mid)) + 1)%Z
    with (Z.of_nat (String.length pre + String.length ("{" ++ mid ++ "}")))
    by (rewrite !length_append; simpl; lia).
  by rewrite slice_middle.
Qed.

Lemma fenced_block_is_extracted_witness :
  extract_json_text ("Here you go: " ++ "```json" ++ " {x} " ++ "```" ++ " Enjoy!")
  = Ok (strip " {x} ").
Proof. apply fenced_block_is_extracted; reflexivity. Defined.

Lemma unterminated_fence_loses_the_last_character_witness :
  extract_json_text ("Here you go: " ++ "```json" ++ " {x}") = Ok (strip (drop_last " {x}")).
Proof. apply unterminated_fence_loses_the_last_character; reflexivity. Defined.

Lemma braces_are_extracted_witness :
  extract_json_text ("} Plan: " ++ "{" ++ "x{y}z" ++ "}" ++ " done") = Ok ("{" ++ "x{y}z" ++ "}").
Proof. apply braces_are_extracted; reflexivity. Defined.

Lemma slice_to_zero (s : string) (start : Z) : (0 <= start)%Z -> slice s start 0 = "".
Proof.
  intros H. unfold slice, clamp.
  destruct (Z.ltb_spec start 0); [lia|]. change (0 <? 0)%Z with false. cbv iota.
  set (len := Z.of_nat (String.length s)).
  replace (Z.to_nat (Z.min 0 len - Z.min start len)) with 0%nat by lia.
  apply substring_nothing.
Qed.

(** X19.  [generate_meal_plan] fails with the one exception "Failed to
    generate meal plan" and nothing else.  It fails, before the parser is
    called, on an answer with neither a backquote nor an opening brace; and
    on an answer with an opening brace but no closing brace the parser is
    handed the empty string. *)
Theorem answers_without_json (json_loads : string -> result value) (response_text : string) :
  (forall e, generate_meal_plan json_loads response_text = Raise e ->
     e = Exception "Failed to generate meal plan") /\
  (has_char "`" response_text = false -> has_char "{" response_text = false ->
     generate_meal_plan json_loads response_text
     = Raise (Exception "Failed to generate meal plan")) /\
  (forall pre rest, response_text = pre ++ "{" ++ rest ->
     has_char "`" response_text = false -> has_char "}" response_text = false ->
     extract_json_text response_text = Ok "" /\
     generate_meal_plan json_loads response_text = failed_to_generate (json_loads "")).
Proof.
  split_and!.
  - intros e. unfold generate_meal_plan, failed_to_generate.
    destruct (_ ≫= _); [discriminate | by intros [= <-]].
  - intros Hq Hb. unfold generate_meal_plan, extract_json_text, contains.
    by rewrite (index_absent "`" "``json" _ Hq), (index_absent "{" "" _ Hb).
  - intros pre rest -> Hq Hc.
    assert (extract_json_text (pre ++ "{" ++ rest) = Ok "") as E.
    { unfold extract_json_text, contains, str_find, str_rfind.
      rewrite (index_absent "`" "``json" _ Hq), (rindex_absent "}" _ Hc).
      destruct (String.index 0 "{" (pre ++ "{" ++ rest)) as [n|] eqn:Hi.
      - replace (Z.to_nat 0) with 0%nat by done. rewrite Hi.
        change (-1 + 1)%Z with 0%Z. rewrite slice_to_zero by lia. reflexivity.
      - exfalso. revert Hi. clear. induction pre as [|b pre IH].
        + rewrite append_nil, (index_here "{" ""). discriminate.
        + rewrite append_cons. cbn [String.index].
          destruct (String.prefix "{" (String b (pre ++ "{" ++ rest))); [discriminate|].
          destruct (String.index 0 "{" (pre ++ "{" ++ rest)); [discriminate|]. by intros _. }
    split; [exact E|]. unfold generate_meal_plan. by rewrite E.
Qed.

(** ** Authentication of a request *)

Section Authentication.

Variable jwt_decode : string -> option (gmap string value).
Variable ObjectId_is_valid : string -> bool.

Lemma get_user_id_from_token_Ok (token : string) (user_id : value) :
  get_user_id_from_token jwt_decode token = Ok user_id <->
  exists payload,
    jwt_decode token = Some payload /\ payload !! "sub" = Some user_id /\ user_id <> VNone.
Proof.
  unfold get_user_id_from_token, verify_token, get.
  destruct (jwt_decode token) as [payload|]; cbn [or_raise].
  - rewrite bind_Ok. destruct (payload !! "sub") as [sub|] eqn:Hsub; cbn [default].
    + split.
      * intros H. exists payload. destruct sub; try discriminate; by injection H as <-.
      * intros (p & [= <-] & Hs & Hn). rewrite Hs in Hsub. injection Hsub as <-.
        by destruct user_id.
    + split; [discriminate|]. intros (p & [= <-] & Hs & _). congruence.
  - split; [discriminate|]. by intros (p & [=] & _).
Qed.

Lemma get_user_id_from_token_Raise (token : string) (e : exn) :
  get_user_id_from_token jwt_decode token = Raise e -> e = HTTPException 401.
Proof.
  unfold get_user_id_from_token, verify_token, get.
  destruct (jwt_decode token) as [payload|]; cbn [or_raise]; [|by intros [= <-]].
  rewrite bind_Ok. destruct (default VNone (payload !! "sub")); by intros [= <-].
Qed.

Lemma ObjectId_Ok_not_None (user_id : value) (oid : string) :
  ObjectId ObjectId_is_valid user_id = Ok oid -> user_id <> VNone.
Proof. by intros H ->. Qed.

(** X20.  [get_current_user] answers with a document exactly when the
    token is accepted, its subject names a document of the collection and
    that document is not deactivated (an absent [is_active] counts as
    active, a falsy one as deactivated); every other outcome is the status
    401. *)
Theorem current_user_is_stored_and_active (token : string) (db : users) :
  (forall user,
     get_current_user jwt_decode ObjectId_is_valid token db = Ok user <->
     exists payload sub oid,
       jwt_decode token = Some payload /\ payload !! "sub" = Some sub /\
       ObjectId ObjectId_is_valid sub = Ok oid /\ db !! oid = Some user /\
       truthy (get_default user "is_active" (VBool true)) = true) /\
  (forall e, get_current_user jwt_decode ObjectId_is_valid token db = Raise e ->
     e = HTTPException 401).
Proof.
  assert (forall p s o, jwt_decode token = Some p -> p !! "sub" = Some s ->
            ObjectId ObjectId_is_valid s = Ok o ->
            get_user_id_from_token jwt_decode token = Ok s) as Hid.
  { intros p s o Hp Hs Ho. apply get_user_id_from_token_Ok. exists p.
    eauto using ObjectId_Ok_not_None. }
  unfold get_current_user.
  destruct (get_user_id_from_token jwt_decode token) as [sub|e0] eqn:Hsub.
  - pose proof Hsub as (payload & Hp & Hs & Hn)%get_user_id_from_token_Ok.
    rewrite bind_Ok.
    destruct (ObjectId ObjectId_is_valid sub) as [oid|e'] eqn:Hoid.
    + rewrite bind_Ok.
      assert (forall user, (exists payload0 sub0 oid0,
                 jwt_decode token = Some payload0 /\ payload0 !! "sub" = Some sub0 /\
                 ObjectId ObjectId_is_valid sub0 = Ok oid0 /\ db !! oid0 = Some user /\
                 truthy (get_default user "is_active" (VBool true)) = true) <->
               db !! oid = Some user /\
               truthy (get_default user "is_active" (VBool true)) = true) as Hiff.
      { intros user. split.
        - intros (p & s & o & Hp' & Hs' & Ho' & Hd & Ht).
          pose proof (Hid p s o Hp' Hs' Ho') as E. injection E as <-.
          rewrite Hoid in Ho'. injection Ho' as <-. done.
        - intros [Hd Ht]. exists payload, sub, oid. done. }
      destruct (db !! oid) as [user'|] eqn:Hdb.
      * destruct (truthy (get_default user' "is_active" (VBool true))) eqn:Hact;
          cbn [negb unauthorized]; (split; [|by intros e [= <-]]);
          intros user; rewrite Hiff; split; try discriminate.
        -- by intros [= <-].
        -- by intros [[= <-] _].
        -- intros [[= <-] Ht]. congruence.
      * cbn [unauthorized]. split; [|by intros e [= <-]].
        intros user. rewrite Hiff. split; [discriminate | by intros [[=] _]].
    + rewrite bind_Raise.
      assert (unauthorized (Raise e' : result (gmap string value))
              = Raise (HTTPException 401)) as ->.
      { revert Hoid. unfold ObjectId. destruct sub; try (by intros [= <-]).
        destruct (ObjectId_is_valid s); [discriminate | by intros [= <-]]. }
      split; [|by intros e [= <-]]. intros user. split; [discriminate|].
      intros (p & s & o & Hp' & Hs' & Ho' & _).
      pose proof (Hid p s o Hp' Hs' Ho') as E. injection E as <-. congruence.
  - apply get_user_id_from_token_Raise in Hsub as ->. rewrite bind_Raise.
    split; [|by intros e [= <-]]. intros user. split; [discriminate|].
    intros (p & s & o & Hp' & Hs' & Ho' & _).
    by pose proof (Hid p s o Hp' Hs' Ho').
Qed.

End Authentication.

(** ** Health insights *)

(** X21.  Every status the engine can compute has its own interpretation:
    the fallback text "BMI status unknown" is returned for the other
    strings only. *)
Theorem every_status_has_an_interpretation :
  (forall bmi, get_bmi_interpretation (get_bmi_status bmi) <> "BMI status unknown") /\
  (forall status,
     status ∉ ["underweight"; "normal"; "overweight"; "obese"] ->
     get_bmi_interpretation status = "BMI status unknown").
Proof.
  split.
  - intros bmi. unfold get_bmi_status.
    repeat destruct (decide _); by vm_compute.
  - intros status H. repeat (apply not_elem_of_cons in H as [? H]).
    unfold get_bmi_interpretation, interpretations.
    rewrite !lookup_insert_ne by done. by rewrite lookup_singleton_ne.
Qed.

(** X22.  [get_weight_guidance] reads only the size and the sign of the
    recommended change: below 1 kg either way the weight is called healthy,
    from 1 kg up a gain of that amount is advised and from -1 kg down a
    loss of the amount without its sign; the goal plays no part. *)
Theorem weight_guidance_by_size_and_sign
    (format_1f : Qc -> string) (goal : string) (recommended_change : Qc) :
  (num (-1) < recommended_change /\ recommended_change < num 1 ->
     get_weight_guidance format_1f goal recommended_change
     = "Your current weight is in a healthy range for your height.") /\
  (num 1 <= recommended_change ->
     get_weight_guidance format_1f goal recommended_change
     = "For optimal health, consider gaining " ++ format_1f recommended_change
       ++ " kg through healthy nutrition and strength training.") /\
  (recommended_change <= num (-1) ->
     get_weight_guidance format_1f goal recommended_change
     = "For optimal health, consider losing " ++ format_1f (- recommended_change)
       ++ " kg through a balanced diet and regular exercise.").
Proof.
  unfold get_weight_guidance, py_abs.
  split_and!; intros H;
    repeat destruct (decide _); try reflexivity; exfalso;
    repeat match goal with
           | H : ~ (_ < _) |- _ => apply Qcnot_lt_le in H
           end;
    unfold Qclt, Qcle, Qcopp in *; simpl in *; rewrite ?Qred_correct in *;
    repeat match goal with H : _ /\ _ |- _ => destruct H end;
    unfold Qlt, Qle in *; simpl in *; lia.
Qed.
